(** * Reconciliation and anomaly-classification engine

    A shallow embedding of the reconciliation pipeline
    ([data_processor.py], [anomaly_detector.py], [anomaly_classifier.py],
    [ai_insights.py], [reconciliation_workflow.py]) and the properties of
    its specification that are checked against it.

    Numeric columns are pandas [float64] columns: they are modelled by the
    kernel's binary64 floats, the null of a numeric column is NaN, and all
    arithmetic and comparisons are the IEEE operations the code performs.
    A balance column in which every cell is a whole number is an [int64]
    column in pandas; the Difference Engine is also given on columns of
    either dtype ([Dtyped]), and shown to be the engine on floats when the
    balance columns are [float64]. *)

From Stdlib Require Import ZArith Floats.
From stdpp Require Import base option list gmap strings sorting.

Local Open Scope string_scope.
#[local] Set Warnings "-inexact-float".

(** ** Python exceptions and fallible code *)

Inductive exn :=
  | KeyError (key : string)
  | ValueError (msg : string)
  | TypeError
  | NameError (name : string)
  | NotFittedError
  | OverflowError
  | LibraryError (msg : string).

Inductive result (A : Type) :=
  | Ok (a : A)
  | Raise (e : exn).
Arguments Ok {A} a.
Arguments Raise {A} e.

Definition bind {A B} (m : result A) (k : A → result B) : result B :=
  match m with
  | Ok a => k a
  | Raise e => Raise e
  end.

#[global] Instance result_ret : MRet result := @Ok.
#[global] Instance result_bind : MBind result := fun A B k m => bind m k.

Fixpoint mapM_result {A B} (f : A → result B) (l : list A) : result (list B) :=
  match l with
  | [] => Ok []
  | a :: l' => b ← f a; bs ← mapM_result f l'; Ok (b :: bs)
  end.

Definition raises {A} (m : result A) : Prop := ∃ e, m = Raise e.

(** ** Floating-point helpers (numpy / pandas on float64) *)

Module F.
Local Open Scope float_scope.

(** [pd.isna] on a float. *)
Definition isna (x : float) : bool := PrimFloat.is_nan x.

(** [Series.fillna(0)]. *)
Definition fillna0 (x : float) : float := if isna x then 0 else x.

(** [x != y] on floats: true as soon as one side is NaN. *)
Definition neb (x y : float) : bool := negb (x =? y).

(** [a > b]. *)
Definition gtb (x y : float) : bool := y <? x.

(** [np.sign]: -1, 0 or 1, and NaN on NaN. *)
Definition sign (x : float) : float :=
  if 0 <? x then 1
  else if x <? 0 then -1
  else if x =? 0 then 0
  else x.

(** [np.rint]: round to the nearest integer, ties to even.  Below 2^52 the
    sum with 2^52 is rounded to an integer by the addition itself; from
    2^52 on every float is an integer. *)
Definition two52 : float := 4503599627370496.
Definition rint (x : float) : float :=
  if abs x <? two52 then
    let r := (abs x + two52) - two52 in
    if get_sign x then - r else r
  else x.

(** [Series.round(2)]: numpy multiplies by [10**2], rounds to an integer
    and divides by [10**2]. *)
Definition round2 (x : float) : float := rint (x * 100) / 100.
End F.

(** ** data_processor.py *)

(** A row of [self.df] after [clean_data]: the required columns, typed by the
    coercions of [clean_data] (text columns are strings, balances are floats,
    [AsofDate] is a timestamp), under its index label. The balance columns
    are [float64] columns here; [Dtyped] below has the rows of [int64]
    columns as well. *)
Record CleanRow := {
  index : Z;
  AsofDate : Z;
  Company : string;
  Account : string;
  AU : string;
  Currency : string;
  Primary_Account : string;
  Secondary_Account : string;
  GL_Balance : float;
  IHUB_Balance : float;
}.

(** After [preprocess_data]: the [CompositeKey] column is added. *)
Record KeyedRow := {
  keyed_base :> CleanRow;
  CompositeKey : string;
}.

(** After [calculate_differences]. *)
Record DiffRow := {
  diff_base :> KeyedRow;
  Balance_Difference : float;
  Abs_Difference : float;
  Match_Status : string;
  Pct_Difference : float;
}.

(** After [add_previous_differences]. *)
Record LinkedRow := {
  linked_base :> DiffRow;
  Previous_Balance_Difference : float;
  Difference_Change : float;
}.

Module DataProcessor.
Local Open Scope float_scope.

Definition composite_key (r : CleanRow) : string :=
  (Company r +:+ "_" +:+ Account r +:+ "_" +:+ AU r +:+ "_" +:+
   Currency r +:+ "_" +:+ Primary_Account r)%string.

(** The two rounded balance columns and the key column of a row. *)
Definition preprocess_row (r : CleanRow) : KeyedRow :=
  let r' := {| index := index r; AsofDate := AsofDate r;
               Company := Company r; Account := Account r; AU := AU r;
               Currency := Currency r; Primary_Account := Primary_Account r;
               Secondary_Account := Secondary_Account r;
               GL_Balance := F.round2 (GL_Balance r);
               IHUB_Balance := F.round2 (IHUB_Balance r) |} in
  {| keyed_base := r'; CompositeKey := composite_key r' |}.

(** Order of [sort_values(['CompositeKey', 'AsofDate'])]: by key, then by
    date. *)
Definition row_leb (a b : KeyedRow) : bool :=
  match String.compare (CompositeKey a) (CompositeKey b) with
  | Lt => true
  | Eq => (AsofDate a <=? AsofDate b)%Z
  | Gt => false
  end.

(** [sort_values] on several columns keeps rows with equal keys in their
    order (a stable sort); insertion from the right is one. *)
Fixpoint insert_row (x : KeyedRow) (l : list KeyedRow) : list KeyedRow :=
  match l with
  | [] => [x]
  | y :: l' => if row_leb x y then x :: l else y :: insert_row x l'
  end.

Definition sort_values (l : list KeyedRow) : list KeyedRow :=
  foldr insert_row [] l.

Definition preprocess_data (df : list CleanRow) : list KeyedRow :=
  sort_values (map preprocess_row df).

Definition difference_row (r : KeyedRow) : DiffRow :=
  let d := GL_Balance r - IHUB_Balance r in
  let a := abs d in
  {| diff_base := r;
     Balance_Difference := d;
     Abs_Difference := a;
     Match_Status := if a <? 1 then "Match" else "Break";
     Pct_Difference :=
       if F.neb (IHUB_Balance r) 0 then (d / IHUB_Balance r) * 100 else nan |}.

Definition calculate_differences (df : list KeyedRow) : list DiffRow :=
  map difference_row df.

(** [groupby('CompositeKey')['Balance Difference'].shift(1)]: each row gets
    the value of the row before it in its group, in frame order, and NaN
    when it is the first of its group. [last] holds, per key, the value of
    the latest row seen. *)
Fixpoint groupby_shift (last : gmap string float) (df : list DiffRow)
  : list float :=
  match df with
  | [] => []
  | r :: df' =>
      default nan (last !! CompositeKey r)
      :: groupby_shift (<[CompositeKey r := Balance_Difference r]> last) df'
  end.

Definition link_row (r : DiffRow) (p : float) : LinkedRow :=
  {| linked_base := r;
     Previous_Balance_Difference := p;
     Difference_Change := Balance_Difference r - p |}.

Definition add_previous_differences (df : list DiffRow) : list LinkedRow :=
  zip_with link_row df (groupby_shift ∅ df).

(** The order of [sort_values] as a relation, and the order of the dates. *)
Definition row_le (a b : KeyedRow) : Prop := row_leb a b = true.
Definition date_le (a b : CleanRow) : Prop := (AsofDate a <= AsofDate b)%Z.

(** [self.df[['AsofDate', ..., 'IHUB Balance']]]: the columns a second run of
    the engine starts from. *)
Definition raw_columns (r : LinkedRow) : CleanRow := r.

(** The rows of one series (one key) of a frame, in frame order. *)
Definition group (k : string) (df : list LinkedRow) : list LinkedRow :=
  filter (fun r : LinkedRow => CompositeKey r = k) df.

(** A chain of rows: the previous difference of each row is the difference of
    the row before it, [prev] for the first row. *)
Fixpoint chained (prev : float) (g : list LinkedRow) : Prop :=
  match g with
  | [] => True
  | r :: g' =>
      Previous_Balance_Difference r = prev ∧
      Difference_Change r = Balance_Difference r - prev ∧
      chained (Balance_Difference r) g'
  end.

(** The stages of [full_pipeline] after [clean_data]. [get_processed_data]
    selects columns and keeps every row; the selection is made where a row
    is turned into a Series. *)
Definition full_pipeline (df : list CleanRow) : list LinkedRow :=
  add_previous_differences (calculate_differences (preprocess_data df)).
End DataProcessor.

(** ** anomaly_detector.py *)

(** After [detect_anomalies] and after [calculate_anomaly_scores]. *)
Record FlaggedRow := {
  flagged_base :> LinkedRow;
  Is_Anomaly : Z;
}.

Record ScoredRow := {
  scored_base :> FlaggedRow;
  Anomaly_Score : float;
}.

(** A feature matrix with the two columns [Balance Difference] and
    [Previous Balance Difference]. *)
Abbreviation features := (list (float * float)).

(** The scikit-learn estimators are outside the repository. They are taken as
    they are used: a scaler and a forest are unfitted until [fit_transform] /
    [fit_predict] ran, a call may raise, and nothing is assumed about the
    numbers they return. *)
Record sklearn := {
  scaler_state : Type;
  forest_state : Type;
  (** [StandardScaler.fit_transform] *)
  scaler_fit_transform : features → result (scaler_state * features);
  (** [StandardScaler.transform] of a fitted scaler *)
  scaler_transform : scaler_state → features → result features;
  (** [IsolationForest.fit_predict] *)
  forest_fit_predict : features → result (forest_state * list Z);
  (** [IsolationForest.score_samples] of a fitted forest *)
  forest_score_samples : forest_state → features → result (list float);
}.

Module AnomalyDetector.
Section with_sklearn.
Context (sk : sklearn).
Local Open Scope float_scope.

(** The object built by [__init__]: [self.scaler] and [self.model], fitted
    ([Some]) or not. *)
Record t := {
  scaler : option (scaler_state sk);
  model : option (forest_state sk);
}.

Definition init : t := {| scaler := None; model := None |}.

(** [df[['Balance Difference', 'Previous Balance Difference']].fillna(0)] *)
Definition feature_row (r : LinkedRow) : float * float :=
  (F.fillna0 (Balance_Difference r), F.fillna0 (Previous_Balance_Difference r)).

(** Assigning an array as a column raises when its length is not the
    frame's. *)
Definition set_column {A B C} (f : A → B → C) (df : list A) (col : list B)
  : result (list C) :=
  if decide (length col = length df) then Ok (zip_with f df col)
  else Raise (ValueError "Length of values does not match length of index").

(** [.map({1: 0, -1: 1})]: any other value maps to a null. *)
Definition map_label (l : Z) : option Z :=
  if decide (l = 1%Z) then Some 0%Z
  else if decide (l = (-1)%Z) then Some 1%Z
  else None.

(** [df.merge(right, left_index=True, right_index=True, how='left')] on a
    single column: every row of [df], once per row of [right] under its
    label, and once with a null when there is none. *)
Definition merge_left (df : list LinkedRow) (right : list (Z * option Z))
  : list (LinkedRow * option Z) :=
  flat_map (fun r : LinkedRow =>
    match filter (fun p => p.1 = index r) right with
    | [] => [(r, None)]
    | ms => map (fun p => (r, p.2)) ms
    end) df.

(** [.fillna(0).astype(int)] *)
Definition flag (p : LinkedRow * option Z) : FlaggedRow :=
  {| flagged_base := p.1; Is_Anomaly := default 0%Z p.2 |}.

Definition detect_anomalies (self : t) (df : list LinkedRow)
  : result (t * list FlaggedRow) :=
  let breaks_df := filter (fun r : LinkedRow => Match_Status r = "Break") df in
  if decide (breaks_df = []) then
    Ok (self, map (fun r => {| flagged_base := r; Is_Anomaly := 0 |}) df)
  else
    let feats := map feature_row breaks_df in
    '(sc, scaled_features) ← scaler_fit_transform sk feats;
    let self := {| scaler := Some sc; model := model self |} in
    '(fo, labels) ← forest_fit_predict sk scaled_features;
    let self := {| scaler := scaler self; model := Some fo |} in
    col ← set_column (fun (r : LinkedRow) l => (index r, map_label l))
                     breaks_df labels;
    Ok (self, map flag (merge_left df col)).

Definition calculate_anomaly_scores (self : t) (df : list FlaggedRow)
  : result (list ScoredRow) :=
  let feats := map (fun r : FlaggedRow => feature_row r) df in
  if decide (length feats = 0%nat) then
    Ok (map (fun r => {| scored_base := r; Anomaly_Score := 0 |}) df)
  else
    sc ← match scaler self with
         | Some sc => Ok sc
         | None => Raise NotFittedError
         end;
    scaled_features ← scaler_transform sk sc feats;
    fo ← match model self with
         | Some fo => Ok fo
         | None => Raise NotFittedError
         end;
    scores ← forest_score_samples sk fo scaled_features;
    set_column (fun r s => {| scored_base := r; Anomaly_Score := - s |})
               df scores.

(** The Anomaly Scorer as the workflow runs it: a fresh detector, then the
    two calls. *)
Definition score (df : list LinkedRow) : result (list ScoredRow) :=
  '(self, df) ← detect_anomalies init df;
  calculate_anomaly_scores self df.
End with_sklearn.
End AnomalyDetector.

(** ** Rows as pandas Series *)

(** A cell of a row handed to a row-wise function. *)
Inductive value :=
  | VStr (s : string)
  | VNum (x : float)
  | VInt (n : Z)
  | VTime (t : Z).

(** A row as [df.apply(..., axis=1)] hands it over: a Series, from column
    name to cell. A frame of such rows lists its columns. *)
Abbreviation Series := (gmap string value).

Record Frame := {
  columns : list string;
  rows : list Series;
}.

Module Py.
(** [row[key]] *)
Definition getitem (row : Series) (key : string) : result value :=
  match row !! key with
  | Some v => Ok v
  | None => Raise (KeyError key)
  end.

(** [row.get(key, default)] *)
Definition get (row : Series) (key : string) (dflt : value) : value :=
  default dflt (row !! key).

(** [v == s] for a string literal [s]. *)
Definition eq_str (v : value) (s : string) : bool :=
  match v with
  | VStr s' => bool_decide (s' = s)
  | _ => false
  end.

(** The float nearest to a whole number, an infinity when the number is
    beyond the range of floats. *)
Definition float_of_Z (n : Z) : float :=
  SF2Prim (binary_normalize prec emax n 0 false).

(** The number held by a cell; arithmetic on a string or a timestamp raises
    [TypeError]. The absolute value and the sign of an [int], and its
    comparisons with a float, are exact in Python and never fail; the
    comparisons made here have the same outcome on the float nearest to the
    [int], an infinity included. *)
Definition as_float (v : value) : result float :=
  match v with
  | VNum x => Ok x
  | VInt n => Ok (float_of_Z n)
  | VStr _ | VTime _ => Raise TypeError
  end.

(** The float an [int] is converted to when it meets a float in an
    operation: Python raises [OverflowError] when the [int] is beyond the
    range of floats. *)
Definition to_float (v : value) : result float :=
  match v with
  | VInt n =>
      if is_infinity (float_of_Z n) then Raise OverflowError
      else Ok (float_of_Z n)
  | _ => as_float v
  end.

(** [abs(v)], [v - w] and [np.sign(v)] *)
Definition abs (v : value) : result float :=
  x ← as_float v; Ok (PrimFloat.abs x).

Definition sub (v w : value) : result float :=
  x ← to_float v; y ← to_float w; Ok (x - y)%float.

Definition sign (v : value) : result float :=
  x ← as_float v; Ok (F.sign x).

(** [pd.isna] and [pd.notna] on a cell. *)
Definition isna (v : value) : bool :=
  match v with
  | VNum x => F.isna x
  | _ => false
  end.

Definition notna (v : value) : bool := negb (isna v).
End Py.

(** ** anomaly_classifier.py *)

Module HybridAnomalyClassifier.
Local Open Scope float_scope.

(** [self.thresholds] *)
Record thresholds_t := {
  significant_variance : float;
  small_difference : float;
  large_difference : float;
}.

Definition thresholds : thresholds_t :=
  {| significant_variance := 0.5;
     small_difference := 1.0;
     large_difference := 10000.0 |}.

Definition classify_break (row : Series) : result string :=
  ms ← Py.getitem row "Match Status";
  if Py.eq_str ms "Match" then Ok "Within Tolerance"
  else
    current_diff ← Py.getitem row "Balance Difference";
    abs_diff ← Py.abs current_diff;
    let prev_diff := Py.get row "Previous Balance Difference" (VInt 0) in
    abs_prev_diff ← (if Py.notna prev_diff then Py.abs prev_diff else Ok 0);
    if abs_diff <? small_difference thresholds then Ok "Small Difference"
    else if Py.isna prev_diff then Ok "New Difference"
    else if F.gtb abs_diff (large_difference thresholds) then
      Ok "Large Difference"
    else
      change ← Py.sub current_diff prev_diff;
      if F.gtb (abs change) (significant_variance thresholds * abs_prev_diff)
      then Ok "Significant Variance"
      else
        sign_current ← Py.sign current_diff;
        sign_prev ← Py.sign prev_diff;
        if F.neb sign_current sign_prev then Ok "Direction Change"
        else if abs change <? 0.1 * abs_prev_diff then
          Ok "Consistent Difference"
        else Ok "Moderate Difference".

Definition add_column (c : string) (cols : list string) : list string :=
  if bool_decide (c ∈ cols) then cols else cols ++ [c].

(** [df[c] = col], row by row. *)
Definition set_cells (c : string) (df : list Series) (col : list value)
  : list Series :=
  zip_with (fun row v => <[c := v]> row) df col.

Definition classify_all (df : Frame) : result Frame :=
  if bool_decide ("Match Status" ∈ columns df) then
    labels ← mapM_result classify_break (rows df);
    Ok {| columns := add_column "Break Classification" (columns df);
          rows := set_cells "Break Classification" (rows df)
                            (map VStr labels) |}
  else
    Raise (ValueError "Match Status column not found. Run reconciliation first.").

(** The labels the classifier can return. *)
Definition taxonomy : list string :=
  ["Within Tolerance"; "Small Difference"; "New Difference";
   "Large Difference"; "Significant Variance"; "Direction Change";
   "Consistent Difference"; "Moderate Difference"].
End HybridAnomalyClassifier.

(** ** ai_insights.py *)

(** The language-model collaborator is outside the repository: building it
    from a token, what it does to a frame and to a summary request, and
    writing the results are taken as given, each free to raise. *)
Record collaborators := {
  llm : Type;
  (** [HuggingFaceHub(repo_id=..., model_kwargs=...)] *)
  make_llm : string → result llm;
  (** the language-model path of [generate_break_comments] *)
  llm_break_comments : llm → Frame → result Frame;
  (** the language-model path of [generate_executive_summary] *)
  llm_executive_summary : llm → Frame → result string;
  (** [_save_results] *)
  save_results : Frame → string → result ();
}.

Module AIIInsightsGenerator.
Section with_collaborators.
Context (co : collaborators).

(** The names bound at the top level of [ai_insights.py]: its imports and
    its class. *)
Definition module_globals : list string :=
  ["HuggingFaceHub"; "LLMChain"; "PromptTemplate"; "pd"; "os";
   "AIIInsightsGenerator"].

(** Reading a global name of the module. *)
Definition global (name : string) : result () :=
  if bool_decide (name ∈ module_globals) then Ok ()
  else Raise (NameError name).

(** The object built by [__init__]; only [self.llm_chain] is used below. *)
Record t := { llm_chain : option (llm co) }.

(** [_initialize_llm_chain]: no chain without a token (an empty token is
    false as well). *)
Definition init (hf_token : option string) : result t :=
  match hf_token with
  | None => Ok {| llm_chain := None |}
  | Some tok =>
      if bool_decide (tok = "") then Ok {| llm_chain := None |}
      else l ← make_llm co tok; Ok {| llm_chain := Some l |}
  end.

Definition placeholder_comment (row : Series) : result value :=
  ms ← Py.getitem row "Match Status";
  Ok (VStr (if Py.eq_str ms "Break"
            then "Discrepancy detected - requires investigation"
            else "Difference within acceptable tolerance")).

Definition generate_break_comments (self : t) (df : Frame) : result Frame :=
  match llm_chain self with
  | None =>
      _ ← global "np";
      comments ← mapM_result placeholder_comment (rows df);
      Ok {| columns := HybridAnomalyClassifier.add_column "Comments" (columns df);
            rows := HybridAnomalyClassifier.set_cells "Comments" (rows df) comments |}
  | Some l => llm_break_comments co l df
  end.

Definition generate_executive_summary (self : t) (df : Frame) : result string :=
  match llm_chain self with
  | None => Ok "AI summary unavailable (no HuggingFace token provided)"
  | Some l => llm_executive_summary co l df
  end.
End with_collaborators.
End AIIInsightsGenerator.

(** ** reconciliation_workflow.py *)

Module ReconciliationWorkflow.
Section with_environment.
Context (sk : sklearn) (co : collaborators).

(** The columns [get_processed_data] keeps, in its order, followed by the
    two columns of the detector. *)
Definition processed_columns : list string :=
  ["AsofDate"; "Company"; "Account"; "AU"; "Currency"; "Primary Account";
   "Secondary Account"; "GL Balance"; "IHUB Balance";
   "Balance Difference"; "Abs Difference"; "Pct Difference";
   "Previous Balance Difference"; "Difference Change"; "Match Status"].

Definition to_series (r : ScoredRow) : Series :=
  list_to_map
    [("AsofDate", VTime (AsofDate r)); ("Company", VStr (Company r));
     ("Account", VStr (Account r)); ("AU", VStr (AU r));
     ("Currency", VStr (Currency r));
     ("Primary Account", VStr (Primary_Account r));
     ("Secondary Account", VStr (Secondary_Account r));
     ("GL Balance", VNum (GL_Balance r));
     ("IHUB Balance", VNum (IHUB_Balance r));
     ("Balance Difference", VNum (Balance_Difference r));
     ("Abs Difference", VNum (Abs_Difference r));
     ("Pct Difference", VNum (Pct_Difference r));
     ("Previous Balance Difference", VNum (Previous_Balance_Difference r));
     ("Difference Change", VNum (Difference_Change r));
     ("Match Status", VStr (Match_Status r));
     ("Is Anomaly", VInt (Is_Anomaly r));
     ("Anomaly Score", VNum (Anomaly_Score r))].

Definition to_frame (df : list ScoredRow) : Frame :=
  {| columns := processed_columns ++ ["Is Anomaly"; "Anomaly Score"];
     rows := map to_series df |}.

(** The body of the [try] of [execute], from the cleaned frame on. *)
Definition run (hf_token : option string) (df : list CleanRow)
  : result (Frame * string) :=
  let df := DataProcessor.full_pipeline df in
  df ← AnomalyDetector.score sk df;
  df ← HybridAnomalyClassifier.classify_all (to_frame df);
  ai ← AIIInsightsGenerator.init co hf_token;
  df ← AIIInsightsGenerator.generate_break_comments co ai df;
  summary ← AIIInsightsGenerator.generate_executive_summary co ai df;
  _ ← save_results co df summary;
  Ok (df, summary).

(** [execute]: [True] when the body ran through, [False] when anything in
    it raised. *)
Definition execute (hf_token : option string) (df : list CleanRow) : bool :=
  match run hf_token df with
  | Ok _ => true
  | Raise _ => false
  end.
End with_environment.
End ReconciliationWorkflow.

(** ** data_processor.py: the methods that work on the columns of the frame *)

Module DataProcessorColumns.

(** [self.required_columns] *)
Definition required_columns : list string :=
  ["AsofDate"; "Company"; "Account"; "AU"; "Currency"; "Primary Account";
   "Secondary Account"; "GL Balance"; "IHUB Balance"].

(** [str(l)] for a list of column names. *)
Definition repr_list (l : list string) : string :=
  "[" +:+ String.concat ", " (map (fun c => "'" +:+ c +:+ "'") l) +:+ "]".

(** [load_data], given what [pd.read_excel] did: it raised an exception whose
    text is [msg] ([inl msg]), or it returned a frame. Whatever is raised inside
    the [try], the error for the missing columns included, is raised again as
    a [ValueError]. *)
Definition load_data (read : string + Frame) : result Frame :=
  match read with
  | inl msg => Raise (ValueError ("Error loading file: " +:+ msg))
  | inr df =>
      let missing_cols := filter (fun c => c ∉ columns df) required_columns in
      if decide (missing_cols = []) then Ok df
      else Raise (ValueError ("Error loading file: " +:+
                              ("Missing required columns: " +:+
                               repr_list missing_cols)))
  end.

(** [df.drop(columns=[c], errors='ignore')] *)
Definition drop_column (c : string) (df : Frame) : Frame :=
  {| columns := filter (fun c' => c' ≠ c) (columns df);
     rows := map (delete c) (rows df) |}.

(** [df[cols]] for columns [cols] that the frame has. *)
Definition select (cols : list string) (df : Frame) : Frame :=
  {| columns := cols;
     rows := map (fun row : Series =>
                    filter (fun kv : string * value => kv.1 ∈ cols) row)
                 (rows df) |}.

Definition column_order : list string :=
  required_columns ++
  ["Balance Difference"; "Abs Difference"; "Pct Difference";
   "Previous Balance Difference"; "Difference Change"; "Match Status"].

Definition get_processed_data (df : Frame) : Frame :=
  let result := drop_column "CompositeKey" df in
  select (filter (fun col => col ∈ columns result) column_order) result.
End DataProcessorColumns.

(** ** ai_insights.py: the summary with a language model *)

(** What the language-model path needs from outside: the chain, which may
    raise when called, the sum of a column and the text of the filled
    template. *)
Record language_model := {
  chain : Type;
  (** [self.llm_chain(prompt_text)] *)
  call : chain → string → result string;
  (** [df['Is Anomaly'].sum()] *)
  column_sum : list value → value;
  (** [self.templates['executive_summary'].format(...)] from the total, the
      matches, the breaks and the anomalies: the two percentages are computed
      from the first three. *)
  format_summary : nat → nat → nat → value → string;
}.

(** What a call can raise: the exceptions met so far, and the division of an
    integer by zero. *)
Inductive raised :=
  | ZeroDivisionError
  | Raised (e : exn).

Module ExecutiveSummary.
Section with_language_model.
Context (lm : language_model).

(** [df[c]]: the cells of a column, or a [KeyError]. *)
Definition column (c : string) (df : Frame) : raised + list value :=
  if bool_decide (c ∈ columns df) then
    match mapM_result (fun row => Py.getitem row c) (rows df) with
    | Ok cells => inr cells
    | Raise e => inl (Raised e)
    end
  else inl (Raised (KeyError c)).

(** [_generate_with_llm] with a chain: a failure of the call is caught. *)
Definition generate_with_llm (l : chain lm) (prompt_text : string) : string :=
  match call lm l prompt_text with
  | Ok text => text
  | Raise _ => "Analysis generation failed"
  end.

(** [generate_executive_summary] with a chain. *)
Definition generate_executive_summary (l : chain lm) (df : Frame)
  : raised + string :=
  let total_records := length (rows df) in
  match column "Match Status" df with
  | inl e => inl e
  | inr status =>
      let matches :=
        length (filter (fun v => Py.eq_str v "Match" = true) status) in
      let breaks := (total_records - matches)%nat in
      match column "Is Anomaly" df with
      | inl e => inl e
      | inr flags =>
          let anomalies := column_sum lm flags in
          if decide (total_records = 0%nat) then inl ZeroDivisionError
          else inr (generate_with_llm l
                      (format_summary lm total_records matches breaks anomalies))
      end
  end.
End with_language_model.
End ExecutiveSummary.

(** ** The rule table of the specification

    The decision order of section 4.4 as the specification words it: an
    ordered list of predicates with their labels over [d], [p] (null is NaN)
    and the match status, the first predicate that holds giving the label. It
    is compared with [classify_break] below. *)

Module Rules.
Local Open Scope float_scope.

Record input := {
  match_status : string;
  d : float;
  p : float;
}.

Definition small : float := 1.0.
Definition large : float := 10000.0.
Definition variance_ratio : float := 0.5.

Definition table : list ((input → bool) * string) :=
  [ (fun r => bool_decide (match_status r = "Match"), "Within Tolerance");
    (fun r => abs (d r) <? small, "Small Difference");
    (fun r => F.isna (p r), "New Difference");
    (fun r => F.gtb (abs (d r)) large, "Large Difference");
    (fun r => F.gtb (abs (d r - p r)) (variance_ratio * abs (p r)),
       "Significant Variance");
    (fun r => F.neb (F.sign (d r)) (F.sign (p r)), "Direction Change");
    (fun r => abs (d r - p r) <? 0.1 * abs (p r), "Consistent Difference");
    (fun _ => true, "Moderate Difference") ].

Fixpoint first_match (rules : list ((input → bool) * string)) (r : input)
  : option string :=
  match rules with
  | [] => None
  | (holds, label) :: rules' =>
      if holds r then Some label else first_match rules' r
  end.

Definition classify (r : input) : option string := first_match table r.
End Rules.

(** ** data_processor.py: balance columns of either numeric dtype

    [pd.to_numeric] leaves a balance column with the dtype [int64] when every
    cell of it is a whole number, and with [float64] otherwise. The typed
    rows of [DataProcessor] above are those of [float64] columns. The rows
    below carry, with each balance, the dtype of its column (all the cells of
    a column have the same), and [preprocess_data], [calculate_differences]
    and [add_previous_differences] work on them as pandas and numpy do:
    [int64] arithmetic wraps around at 2^63, an operation between an [int64]
    and a [float64] column is made on floats, [/] is made on floats, and
    [shift] turns the column it shifts into [float64]. *)

Inductive num :=
  | Int64 (z : Z)
  | Float64 (x : float).

Module Num.
Local Open Scope float_scope.

(** The value an [int64] operation is left with, from -2^63 to 2^63 - 1. *)
Definition wrap (z : Z) : Z := ((z + 2 ^ 63) mod 2 ^ 64 - 2 ^ 63)%Z.

(** [astype('float64')]: the nearest float, ties to even. *)
Definition to_float (v : num) : float :=
  match v with
  | Int64 z => Py.float_of_Z z
  | Float64 x => x
  end.

(** [Series.round(2)]: a column of whole numbers is left as it is. *)
Definition round2 (v : num) : num :=
  match v with
  | Int64 z => Int64 z
  | Float64 x => Float64 (F.round2 x)
  end.

(** [a - b] *)
Definition sub (a b : num) : num :=
  match a, b with
  | Int64 x, Int64 y => Int64 (wrap (x - y))
  | _, _ => Float64 (to_float a - to_float b)
  end.

(** [Series.abs()] *)
Definition abs (v : num) : num :=
  match v with
  | Int64 z => Int64 (wrap (Z.abs z))
  | Float64 x => Float64 (PrimFloat.abs x)
  end.

(** [v < 1] and [v != 0] *)
Definition lt_one (v : num) : bool :=
  match v with
  | Int64 z => (z <? 1)%Z
  | Float64 x => x <? 1
  end.

Definition ne_zero (v : num) : bool :=
  match v with
  | Int64 z => negb (z =? 0)%Z
  | Float64 x => F.neb x 0
  end.

(** [a / b]: true division, made on floats; a zero divisor gives an
    infinity or NaN and does not raise. *)
Definition div (a b : num) : float := to_float a / to_float b.

(** The whole number a cell holds, when it holds one. *)
Definition exact (v : num) : option Z :=
  match v with
  | Int64 z => Some z
  | Float64 x =>
      match Prim2SF x with
      | S754_zero _ => Some 0%Z
      | S754_finite s m e =>
          let n := if s then Z.neg m else Z.pos m in
          if (0 <=? e)%Z then Some (n * 2 ^ e)%Z
          else if (Z.pos m mod 2 ^ (- e) =? 0)%Z then Some (n / 2 ^ (- e))%Z
          else None
      | _ => None
      end
  end.
End Num.

Module Dtyped.
Local Open Scope float_scope.

(** A row of [self.df] after [clean_data]. *)
Record CleanRow := {
  index : Z;
  AsofDate : Z;
  Company : string;
  Account : string;
  AU : string;
  Currency : string;
  Primary_Account : string;
  Secondary_Account : string;
  GL_Balance : num;
  IHUB_Balance : num;
}.

(** After [preprocess_data]. *)
Record KeyedRow := {
  keyed_base :> CleanRow;
  CompositeKey : string;
}.

(** After [calculate_differences]. [Balance Difference] and [Abs Difference]
    have the dtype of the subtraction, [Pct Difference] is a float. *)
Record DiffRow := {
  diff_base :> KeyedRow;
  Balance_Difference : num;
  Abs_Difference : num;
  Match_Status : string;
  Pct_Difference : float;
}.

(** After [add_previous_differences]: the two columns are [float64]. *)
Record LinkedRow := {
  linked_base :> DiffRow;
  Previous_Balance_Difference : float;
  Difference_Change : float;
}.

Definition composite_key (r : CleanRow) : string :=
  (Company r +:+ "_" +:+ Account r +:+ "_" +:+ AU r +:+ "_" +:+
   Currency r +:+ "_" +:+ Primary_Account r)%string.

(** The row with its two balances rounded. *)
Definition round_row (r : CleanRow) : CleanRow :=
  {| index := index r; AsofDate := AsofDate r;
     Company := Company r; Account := Account r; AU := AU r;
     Currency := Currency r; Primary_Account := Primary_Account r;
     Secondary_Account := Secondary_Account r;
     GL_Balance := Num.round2 (GL_Balance r);
     IHUB_Balance := Num.round2 (IHUB_Balance r) |}.

Definition preprocess_row (r : CleanRow) : KeyedRow :=
  let r' := round_row r in
  {| keyed_base := r'; CompositeKey := composite_key r' |}.

(** Order of [sort_values(['CompositeKey', 'AsofDate'])]. *)
Definition row_leb (a b : KeyedRow) : bool :=
  match String.compare (CompositeKey a) (CompositeKey b) with
  | Lt => true
  | Eq => (AsofDate a <=? AsofDate b)%Z
  | Gt => false
  end.

(** The stable sort, by insertion from the right. *)
Fixpoint insert_row (x : KeyedRow) (l : list KeyedRow) : list KeyedRow :=
  match l with
  | [] => [x]
  | y :: l' => if row_leb x y then x :: l else y :: insert_row x l'
  end.

Definition sort_values (l : list KeyedRow) : list KeyedRow :=
  foldr insert_row [] l.

Definition preprocess_data (df : list CleanRow) : list KeyedRow :=
  sort_values (map preprocess_row df).

Definition difference_row (r : KeyedRow) : DiffRow :=
  let d := Num.sub (GL_Balance r) (IHUB_Balance r) in
  let a := Num.abs d in
  {| diff_base := r;
     Balance_Difference := d;
     Abs_Difference := a;
     Match_Status := if Num.lt_one a then "Match" else "Break";
     Pct_Difference :=
       if Num.ne_zero (IHUB_Balance r)
       then Num.div d (IHUB_Balance r) * 100
       else nan |}.

Definition calculate_differences (df : list KeyedRow) : list DiffRow :=
  map difference_row df.

(** [groupby('CompositeKey')['Balance Difference'].shift(1)]: a [float64]
    column, with the value of the row before in the group converted to a
    float, and NaN for the first row of a group. *)
Fixpoint groupby_shift (last : gmap string float) (df : list DiffRow)
  : list float :=
  match df with
  | [] => []
  | r :: df' =>
      default nan (last !! CompositeKey r)
      :: groupby_shift
           (<[CompositeKey r := Num.to_float (Balance_Difference r)]> last) df'
  end.

(** The subtraction of the [float64] column of previous differences from the
    column of differences is made on floats. *)
Definition link_row (r : DiffRow) (p : float) : LinkedRow :=
  {| linked_base := r;
     Previous_Balance_Difference := p;
     Difference_Change := Num.to_float (Balance_Difference r) - p |}.

Definition add_previous_differences (df : list DiffRow) : list LinkedRow :=
  zip_with link_row df (groupby_shift ∅ df).

Definition full_pipeline (df : list CleanRow) : list LinkedRow :=
  add_previous_differences (calculate_differences (preprocess_data df)).

(** The order of [sort_values] as a relation, the order of the dates, and the
    rows under one key, in frame order. *)
Definition row_le (a b : KeyedRow) : Prop := row_leb a b = true.
Definition date_le (a b : CleanRow) : Prop := (AsofDate a <= AsofDate b)%Z.

Definition group (k : string) (df : list LinkedRow) : list LinkedRow :=
  filter (fun r : LinkedRow => CompositeKey r = k) df.

(** [self.df[['AsofDate', ..., 'IHUB Balance']]]: the columns a second run of
    the engine starts from. *)
Definition raw_columns (r : LinkedRow) : CleanRow := r.

(** A chain of rows: the previous difference of each row is the difference of
    the row before it as a float, [prev] for the first row. *)
Fixpoint chained (prev : float) (g : list LinkedRow) : Prop :=
  match g with
  | [] => True
  | r :: g' =>
      Previous_Balance_Difference r = prev ∧
      Difference_Change r = Num.to_float (Balance_Difference r) - prev ∧
      chained (Num.to_float (Balance_Difference r)) g'
  end.

End Dtyped.

Coercion Dtyped.keyed_base : Dtyped.KeyedRow >-> Dtyped.CleanRow.
Coercion Dtyped.diff_base : Dtyped.DiffRow >-> Dtyped.KeyedRow.
Coercion Dtyped.linked_base : Dtyped.LinkedRow >-> Dtyped.DiffRow.

(** The rows of float64 balance columns among these rows. *)
Definition of_float_row (r : CleanRow) : Dtyped.CleanRow :=
  {| Dtyped.index := index r; Dtyped.AsofDate := AsofDate r;
     Dtyped.Company := Company r; Dtyped.Account := Account r;
     Dtyped.AU := AU r; Dtyped.Currency := Currency r;
     Dtyped.Primary_Account := Primary_Account r;
     Dtyped.Secondary_Account := Secondary_Account r;
     Dtyped.GL_Balance := Float64 (GL_Balance r);
     Dtyped.IHUB_Balance := Float64 (IHUB_Balance r) |}.

Definition of_float_keyed (r : KeyedRow) : Dtyped.KeyedRow :=
  {| Dtyped.keyed_base := of_float_row r;
     Dtyped.CompositeKey := CompositeKey r |}.

Definition of_float_diff (r : DiffRow) : Dtyped.DiffRow :=
  {| Dtyped.diff_base := of_float_keyed r;
     Dtyped.Balance_Difference := Float64 (Balance_Difference r);
     Dtyped.Abs_Difference := Float64 (Abs_Difference r);
     Dtyped.Match_Status := Match_Status r;
     Dtyped.Pct_Difference := Pct_Difference r |}.

Definition of_float_linked (r : LinkedRow) : Dtyped.LinkedRow :=
  {| Dtyped.linked_base := of_float_diff r;
     Dtyped.Previous_Balance_Difference := Previous_Balance_Difference r;
     Dtyped.Difference_Change := Difference_Change r |}.

(** ** Amounts of the specification

    The balances of the specification are decimal values with two decimal
    places. An amount is written here as its number of hundredths, and the
    tolerance test and the rules of section 4.4 are evaluated on these whole
    numbers, without any rounding. They are compared below with what the
    code computes on the floats nearest to the same amounts. *)

Module Decimal.
(** The float64 nearest to an amount. *)
Definition to_float (hundredths : Z) : float :=
  (Py.float_of_Z hundredths / 100)%float.

(** [|gl_balance - ihub_balance| < 1.0] *)
Definition within_tolerance (gl ihub : Z) : bool :=
  (Z.abs (gl - ihub) <? 100)%Z.

Record input := {
  match_status : string;
  d : Z;
  p : option Z;
}.

(** [small = 1.0] and [large = 10000.0], in hundredths; [variance_ratio = 0.5]
    and the [0.1] of rule 7 are applied as divisions by 2 and by 10, moved to
    the other side of the comparison. *)
Definition small : Z := 100.
Definition large : Z := 1000000.

Definition previous (r : input) : Z := default 0%Z (p r).

Definition table : list ((input → bool) * string) :=
  [ (fun r => bool_decide (match_status r = "Match"), "Within Tolerance");
    (fun r => (Z.abs (d r) <? small)%Z, "Small Difference");
    (fun r => bool_decide (p r = None), "New Difference");
    (fun r => (large <? Z.abs (d r))%Z, "Large Difference");
    (fun r => (Z.abs (previous r) <? 2 * Z.abs (d r - previous r))%Z,
       "Significant Variance");
    (fun r => negb (Z.sgn (d r) =? Z.sgn (previous r))%Z, "Direction Change");
    (fun r => (10 * Z.abs (d r - previous r) <? Z.abs (previous r))%Z,
       "Consistent Difference");
    (fun _ => true, "Moderate Difference") ].

Fixpoint first_match (rules : list ((input → bool) * string)) (r : input)
  : option string :=
  match rules with
  | [] => None
  | (holds, label) :: rules' =>
      if holds r then Some label else first_match rules' r
  end.

Definition classify (r : input) : option string := first_match table r.
End Decimal.

(** ** Sample data

    The series of the specification's scenario, identity key
    [(Co1, Acc1, AU1, USD, PA1)], and a stand-in for the estimators to run the
    detector on it. Dates are written as the numbers yyyymmdd. *)

Definition sample_row (i date : Z) (gl ihub : float) : CleanRow :=
  {| index := i; AsofDate := date;
     Company := "Co1"; Account := "Acc1"; AU := "AU1"; Currency := "USD";
     Primary_Account := "PA1"; Secondary_Account := "SA1";
     GL_Balance := gl; IHUB_Balance := ihub |}.

(** 2024-01-31: 100.00 against 100.00; 2024-02-29: 105.00 against 100.00. *)
Definition sample_batch : list CleanRow :=
  [sample_row 0 20240131 100 100; sample_row 1 20240229 105 100].

(** A batch of one record whose balances agree. *)
Definition matching_batch : list CleanRow :=
  [sample_row 0 20240131 100 100].

(** A first record with [Balance Difference = 0.50], then a break. *)
Definition half_unit_batch : list CleanRow :=
  [sample_row 0 20240131 100.5 100; sample_row 1 20240229 105 100].

(** Balances with more than two decimals, out of date order. *)
Definition unrounded_batch : list CleanRow :=
  [sample_row 0 20240229 2.675 1.3; sample_row 1 20240131 100.456 100.004].

(** The stand-in: the scaler changes nothing, the forest calls a sample an
    outlier when its first feature exceeds 1 and scores every sample -0.5. *)
Definition sklearn_stub : sklearn :=
  {| scaler_state := ();
     forest_state := ();
     scaler_fit_transform := fun X => Ok ((), X);
     scaler_transform := fun _ X => Ok X;
     forest_fit_predict := fun X =>
       Ok ((), map (fun x : float * float =>
                      if (1 <? abs x.1)%float then (-1)%Z else 1%Z) X);
     forest_score_samples := fun _ X =>
       Ok (map (fun _ : float * float => (-0.5)%float) X) |}.

(** The second record of the scenario as the classifier sees it, and the same
    row before the temporal linkage ran. *)
Definition scenario_row : Series :=
  <["Match Status" := VStr "Break"]>
    (<["Balance Difference" := VNum 5]>
       (<["Previous Balance Difference" := VNum 0]> ∅)).

Definition unlinked_row : Series :=
  <["Match Status" := VStr "Break"]> (<["Balance Difference" := VNum 5]> ∅).

Definition unlinked_frame : Frame :=
  {| columns := ["Balance Difference"; "Match Status"];
     rows := [unlinked_row] |}.

(** A row with [Balance Difference = 0.50] that is marked as a break. *)
Definition half_unit_break_row : Series :=
  <["Match Status" := VStr "Break"]>
    (<["Balance Difference" := VNum 0.5]>
       (<["Previous Balance Difference" := VNum 1234]> ∅)).

(** The first record of [half_unit_batch] as the pipeline and the stand-in
    estimators leave it. *)
Definition half_unit_record : ScoredRow :=
  {| scored_base :=
       {| flagged_base :=
            DataProcessor.link_row
              (DataProcessor.difference_row
                 (DataProcessor.preprocess_row
                    (sample_row 0 20240131 100.5 100)))
              nan;
          Is_Anomaly := 0 |};
     Anomaly_Score := 0.5 |}.

(** A record of the account [account] on columns of either dtype. *)
Definition dtyped_row (i date : Z) (account : string) (gl ihub : num)
  : Dtyped.CleanRow :=
  {| Dtyped.index := i; Dtyped.AsofDate := date;
     Dtyped.Company := "Co1"; Dtyped.Account := account; Dtyped.AU := "AU1";
     Dtyped.Currency := "USD"; Dtyped.Primary_Account := "PA1";
     Dtyped.Secondary_Account := "SA1";
     Dtyped.GL_Balance := gl; Dtyped.IHUB_Balance := ihub |}.

(** The balances 2.30 and 1.30, exactly 1.00 apart, and the balances 3.00
    and 2.00, on float64 columns. *)
Definition one_unit_apart : Dtyped.CleanRow :=
  dtyped_row 0 20240131 "Acc1"
    (Float64 (Decimal.to_float 230)) (Float64 (Decimal.to_float 130)).

Definition one_unit_apart_whole : Dtyped.CleanRow :=
  dtyped_row 0 20240131 "Acc1"
    (Float64 (Decimal.to_float 300)) (Float64 (Decimal.to_float 200)).

(** Whole balances, on int64 columns: a difference of 2^53 + 1, then one
    of 5. *)
Definition whole_batch : list Dtyped.CleanRow :=
  [dtyped_row 0 20240131 "Acc1" (Int64 9007199254740993) (Int64 0);
   dtyped_row 1 20240229 "Acc1" (Int64 5) (Int64 0)].

(** Whole balances 2^63 apart. *)
Definition far_apart : Dtyped.CleanRow :=
  dtyped_row 0 20240131 "Acc1"
    (Int64 (-4611686018427387904)) (Int64 4611686018427387904).

(** Two accounts, their records mixed and out of date order. *)
Definition two_account_batch : list Dtyped.CleanRow :=
  [dtyped_row 0 20240229 "Acc2" (Float64 107.5) (Float64 100);
   dtyped_row 1 20240229 "Acc1" (Float64 105) (Float64 100);
   dtyped_row 2 20240131 "Acc2" (Float64 103.25) (Float64 100);
   dtyped_row 3 20240131 "Acc1" (Float64 100) (Float64 100)].

(** A break whose difference cell holds a text, and a previous difference
    of 12 as a whole number. *)
Definition text_difference_row : Series :=
  <["Match Status" := VStr "Break"]>
    (<["Balance Difference" := VStr "n/a"]>
       (<["Previous Balance Difference" := VInt 12]> ∅)).

(** A break of 5.00 whose previous difference is the whole number 10^400. *)
Definition huge_previous_row : Series :=
  <["Match Status" := VStr "Break"]>
    (<["Balance Difference" := VNum 5]>
       (<["Previous Balance Difference" := VInt (10 ^ 400)]> ∅)).

(** A break of 1.05 after a difference of 0.70. *)
Definition threshold_row : Series :=
  <["Match Status" := VStr "Break"]>
    (<["Balance Difference" := VNum (Decimal.to_float 105)]>
       (<["Previous Balance Difference" := VNum (Decimal.to_float 70)]> ∅)).

(** The record set of the scenario as the classifier receives it: a match
    that is the first of its series, then a break of 5.00. *)
Definition scenario_frame : Frame :=
  {| columns := ["Balance Difference"; "Previous Balance Difference";
                 "Match Status"];
     rows := [ <["Match Status" := VStr "Match"]>
                 (<["Balance Difference" := VNum 0]>
                    (<["Previous Balance Difference" := VNum nan]> ∅));
               scenario_row ] |}.

(** ** Orders and selections used in the statements *)

(** Earlier in the order of [sort_values(['CompositeKey', 'AsofDate'])]: a
    smaller key, or the same key and a date that is not later. *)
Definition key_then_date (a b : KeyedRow) : Prop :=
  String.ltb (CompositeKey a) (CompositeKey b) = true ∨
  (CompositeKey a = CompositeKey b ∧ (AsofDate a <= AsofDate b)%Z).

(** The [Break] rows of a frame, as [df[df['Match Status'] == 'Break']]. *)
Definition breaks_of (df : list LinkedRow) : list LinkedRow :=
  filter (fun r : LinkedRow => Match_Status r = "Break") df.

(** A stand-in for the collaborators of the workflow: a language model that
    leaves the frame as it is and answers with a fixed text, and a writer that
    succeeds. *)
Definition collaborators_stub : collaborators :=
  {| llm := ();
     make_llm := fun _ => Ok ();
     llm_break_comments := fun _ df => Ok df;
     llm_executive_summary := fun _ _ => Ok "summary";
     save_results := fun _ _ => Ok () |}.

(** A stand-in for the language model: it answers every prompt with the
    prompt, counts the cells of a column for its sum and fills the template
    with nothing. *)
Definition language_model_stub : language_model :=
  {| chain := ();
     call := fun _ prompt => Ok prompt;
     column_sum := fun cells => VInt (Z.of_nat (length cells));
     format_summary := fun _ _ _ _ => "Summarize these reconciliation results" |}.

(** A frame read from a file that lacks the two balance columns. *)
Definition frame_without_balances : Frame :=
  {| columns := ["AsofDate"; "Company"; "Account"; "AU"; "Currency";
                 "Primary Account"; "Secondary Account"];
     rows := [] |}.

(** A text without the separator of the composite key. *)
Fixpoint underscore_free (s : string) : Prop :=
  match s with
  | EmptyString => True
  | String c s' => String c "" ≠ "_" ∧ underscore_free s'
  end.

(** A row with another company and account. *)
Definition with_company_account (company account : string) (r : CleanRow)
  : CleanRow :=
  {| index := index r; AsofDate := AsofDate r;
     Company := company; Account := account; AU := AU r;
     Currency := Currency r; Primary_Account := Primary_Account r;
     Secondary_Account := Secondary_Account r;
     GL_Balance := GL_Balance r; IHUB_Balance := IHUB_Balance r |}.

(** The identity key of a record: company, account, accounting unit, currency
    and primary account, joined by underscores. *)
Definition identity_key (r : Dtyped.CleanRow) : string :=
  Dtyped.Company r +:+ "_" +:+ Dtyped.Account r +:+ "_" +:+ Dtyped.AU r +:+
  "_" +:+ Dtyped.Currency r +:+ "_" +:+ Dtyped.Primary_Account r.

(** The records of a frame with a given identity key, in frame order. *)
Definition series (k : string) (df : list Dtyped.LinkedRow)
  : list Dtyped.LinkedRow :=
  filter (fun r : Dtyped.LinkedRow => identity_key r = k) df.

(** A whole number that fits in an int64 cell. *)
Definition int64 (z : Z) : Prop := (- 2 ^ 63 <= z < 2 ^ 63)%Z.

(** A record as the classifier receives it from the stages before it: a
    status, a float for the difference, and for the previous difference a
    float (NaN when null) or no cell at all. *)
Definition classifier_record (row : Series) : Prop :=
  (∃ ms, row !! "Match Status" = Some (VStr ms)) ∧
  (∃ d, row !! "Balance Difference" = Some (VNum d)) ∧
  (∃ prev, row !! "Previous Balance Difference" = VNum <$> prev).

(** The row with its label in the [Break Classification] cell. *)
Definition labelled (row row1 : Series) : Prop :=
  ∃ l, HybridAnomalyClassifier.classify_break row = Ok l ∧
       l ∈ HybridAnomalyClassifier.taxonomy ∧
       row1 = <["Break Classification" := VStr l]> row.

(** * Properties *)

(** Case analysis on the tests of a chain of conditionals. *)
Ltac destruct_ifs :=
  repeat match goal with
         | |- context [if ?b then _ else _] => destruct b eqn:?
         end.

(** ** Facts about floats *)

Lemma sub_nan_r (x : float) : (x - nan)%float = nan.
Proof.
  apply Prim2SF_inj. rewrite sub_spec.
  change (Prim2SF nan) with S754_nan.
  unfold SF64sub, SFsub. by destruct (Prim2SF x).
Qed.

(** ** The Difference Engine, row by row *)

Section difference_rows.
Local Open Scope float_scope.
Import DataProcessor.

Lemma calculate_differences_rows (df : list KeyedRow) :
  map diff_base (calculate_differences df) = df.
Proof.
  unfold calculate_differences. rewrite <- list_fmap_compose.
  induction df as [|r df IH]; [reflexivity|]. simpl. by f_equal.
Qed.


End difference_rows.

(** ** The Anomaly Scorer *)

Section anomaly_scorer.
Context (sk : sklearn).
Import AnomalyDetector.

Lemma set_column_ok {A B C} (f : A → B → C) (df : list A) (col : list B) out :
  set_column f df col = Ok out →
  length col = length df ∧ out = zip_with f df col.
Proof.
  unfold set_column. case_decide; [|discriminate].
  intros [= <-]. done.
Qed.

Lemma zip_with_fst_eq {A B C} (f : A → B → C) (g : C → A) (l : list A) (k : list B) :
  (∀ a b, g (f a b) = a) → length k = length l → map g (zip_with f l k) = l.
Proof.
  intros Hg. revert k. induction l as [|a l IH]; intros [|b k] Hlen;
    simpl in *; try discriminate; [reflexivity|].
  rewrite Hg. f_equal. apply IH. lia.
Qed.

(** A frame without a [Break] row leaves the detector as it was built. *)
Lemma detect_anomalies_no_breaks (self : t sk) (df : list LinkedRow) :
  Forall (fun r : LinkedRow => Match_Status r ≠ "Break") df →
  detect_anomalies sk self df =
    Ok (self, map (fun r => {| flagged_base := r; Is_Anomaly := 0 |}) df).
Proof.
  intros H. unfold detect_anomalies.
  assert (filter (fun r : LinkedRow => Match_Status r = "Break") df = []) as ->.
  { induction H as [|r l Hr _ IH]; [reflexivity|].
    by rewrite filter_cons_False. }
  by rewrite decide_True.
Qed.

(** At most one row of the right frame carries a given label when its labels
    are distinct. *)
Lemma filter_label_unique (k : Z) (right : list (Z * option Z)) :
  NoDup (map fst right) →
  filter (fun p => p.1 = k) right = [] ∨
  ∃ p, filter (fun p => p.1 = k) right = [p].
Proof.
  induction right as [|q right IH]; intros Hnd; [by left|].
  simpl in Hnd. apply NoDup_cons in Hnd as [Hq Hnd].
  destruct (decide (q.1 = k)) as [Heq|Hne].
  - right. exists q. rewrite filter_cons_True by done. f_equal.
    destruct (filter (fun p => p.1 = k) right) as [|p' ?] eqn:E; [done|].
    exfalso. apply Hq.
    assert (p' ∈ filter (fun p => p.1 = k) right) as Hin by (rewrite E; left).
    apply list_elem_of_filter in Hin as [Hk Hin].
    apply list_elem_of_In, in_map_iff. exists p'. split; [congruence|].
    by apply list_elem_of_In.
  - rewrite filter_cons_False by done. by apply IH.
Qed.

Lemma merge_left_cons (r : LinkedRow) (df : list LinkedRow) right :
  merge_left (r :: df) right =
    (match filter (fun p => p.1 = index r) right with
     | [] => [(r, None)]
     | ms => map (fun p => (r, p.2)) ms
     end ++ merge_left df right)%list.
Proof. reflexivity. Qed.

Lemma merge_left_rows (df : list LinkedRow) (right : list (Z * option Z)) :
  NoDup (map fst right) → map fst (merge_left df right) = df.
Proof.
  intros Hnd. induction df as [|r df IH]; [reflexivity|].
  rewrite merge_left_cons, map_app, IH.
  destruct (filter_label_unique (index r) right Hnd) as [->|[p ->]];
    reflexivity.
Qed.

(** What the merge puts next to a row: a null, or the cell of a right row
    under the same label. *)
Lemma merge_left_cells (df : list LinkedRow) (right : list (Z * option Z)) :
  Forall (fun q : LinkedRow * option Z =>
    q.2 = None ∨ ∃ p, p ∈ right ∧ p.1 = index q.1 ∧ q.2 = p.2)
    (merge_left df right).
Proof.
  induction df as [|r df IH]; [constructor|].
  rewrite merge_left_cons. apply Forall_app. split; [|exact IH].
  destruct (filter (fun p => p.1 = index r) right) as [|p ps] eqn:E.
  { repeat constructor. }
  rewrite <- E. apply Forall_forall. intros q Hq.
  apply list_elem_of_In in Hq. apply in_map_iff in Hq as [p' [<- Hp']].
  apply list_elem_of_In, list_elem_of_filter in Hp' as [Hk Hin].
  right. exists p'. done.
Qed.

Lemma map_label_binary (l : Z) :
  map_label l = None ∨ map_label l = Some 0%Z ∨ map_label l = Some 1%Z.
Proof. unfold map_label. repeat case_decide; auto. Qed.

Lemma elem_of_zip_with {A B C} (f : A → B → C) (l : list A) (k : list B) c :
  c ∈ zip_with f l k → ∃ a b, a ∈ l ∧ b ∈ k ∧ c = f a b.
Proof.
  revert k. induction l as [|a l IH]; intros [|b k] Hc; simpl in Hc;
    try by apply elem_of_nil in Hc.
  apply elem_of_cons in Hc as [->|Hc].
  - exists a, b. repeat split; left.
  - destruct (IH _ Hc) as (a' & b' & ? & ? & ->).
    exists a', b'. repeat split; by right.
Qed.

Lemma bind_Ok {A B} (m : result A) (k : A → result B) (b : B) :
  m ≫= k = Ok b → ∃ a, m = Ok a ∧ k a = Ok b.
Proof. destruct m as [a|e]; [eauto | discriminate]. Qed.

Lemma NoDup_map_inj {A B} (f : A → B) (l : list A) (a b : A) :
  NoDup (map f l) → a ∈ l → b ∈ l → f a = f b → a = b.
Proof.
  induction l as [|x l IH]; simpl; intros Hnd Ha Hb Hf.
  { by apply elem_of_nil in Ha. }
  apply NoDup_cons in Hnd as [Hx Hnd].
  apply elem_of_cons in Ha as [->|Ha]; apply elem_of_cons in Hb as [->|Hb];
    auto; exfalso; apply Hx; apply list_elem_of_In, in_map_iff.
  - exists b. split; [done | by apply list_elem_of_In].
  - exists a. split; [done | by apply list_elem_of_In].
Qed.

Lemma NoDup_map_filter {A B} (f : A → B) (P : A → Prop)
    `{!∀ x, Decision (P x)} (l : list A) :
  NoDup (map f l) → NoDup (map f (filter P l)).
Proof.
  induction l as [|x l IH]; simpl; intros Hnd; [constructor|].
  apply NoDup_cons in Hnd as [Hx Hnd].
  destruct (decide (P x)).
  - rewrite filter_cons_True by done. simpl. apply NoDup_cons. split; [|auto].
    intros Hin. apply Hx. apply list_elem_of_In, in_map_iff in Hin as [y [Hy Hin]].
    apply list_elem_of_In, list_elem_of_filter in Hin as [_ Hin].
    apply list_elem_of_In, in_map_iff. exists y. split; [done|].
    by apply list_elem_of_In.
  - rewrite filter_cons_False by done. auto.
Qed.

(** What [detect_anomalies] returns when it returns: the rows of the frame,
    each with a flag that is 0 or 1, and 0 outside the [Break] rows. *)
Lemma detect_anomalies_flags (self self' : t sk) (df : list LinkedRow)
    (fl : list FlaggedRow) :
  NoDup (map (fun r : LinkedRow => index r) df) →
  detect_anomalies sk self df = Ok (self', fl) →
  map flagged_base fl = df ∧
  Forall (fun r : FlaggedRow =>
    (Is_Anomaly r = 0 ∨ Is_Anomaly r = 1)%Z ∧
    (Match_Status r ≠ "Break" → Is_Anomaly r = 0%Z)) fl.
Proof.
  intros Hnd. unfold detect_anomalies.
  set (breaks_df := filter (fun r : LinkedRow => Match_Status r = "Break") df).
  case_decide as Hb.
  { intros [= <- <-]. split.
    - clear. induction df; simpl; by f_equal.
    - clear. induction df; simpl; constructor; auto. }
  intros H.
  apply bind_Ok in H as ([sc scaled] & _ & H).
  apply bind_Ok in H as ([fo labels] & _ & H).
  apply bind_Ok in H as (col & Hcol & H).
  injection H as _ <-.
  apply set_column_ok in Hcol as [Hlen ->].
  set (col := zip_with (fun (r : LinkedRow) l => (index r, map_label l))
                       breaks_df labels).
  assert (map fst col = map (fun r : LinkedRow => index r) breaks_df) as Hfst.
  { subst col. clear -Hlen. revert labels Hlen.
    induction breaks_df as [|b bs IH]; intros [|l ls] Hlen; simpl in *;
      try discriminate; [reflexivity|]. f_equal. apply IH. lia. }
  assert (NoDup (map fst col)) as Hndc.
  { rewrite Hfst. by apply NoDup_map_filter. }
  assert (map fst (merge_left df col) = df) as Hrows
    by (by apply merge_left_rows).
  split.
  { rewrite <- Hrows at 2. clear.
    induction (merge_left df col); simpl; by f_equal. }
  pose proof (merge_left_cells df col) as Hcells.
  assert (Forall (fun q : LinkedRow * option Z => q.1 ∈ df) (merge_left df col))
    as Hin.
  { apply Forall_forall. intros q Hq. rewrite <- Hrows.
    apply list_elem_of_In, in_map_iff. exists q.
    split; [done | by apply list_elem_of_In]. }
  revert Hcells Hin. generalize (merge_left df col). clear Hrows.
  induction l as [|q l IH]; intros Hcells Hin; simpl; [constructor|].
  apply Forall_cons in Hcells as [Hq Hcells].
  apply Forall_cons in Hin as [Hqin Hin].
  constructor; [|by apply IH].
  simpl. destruct Hq as [->|(p & Hp & Hidx & ->)]; [by auto|].
  subst col. apply elem_of_zip_with in Hp as (b & lab & Hbin & _ & ->).
  simpl in *. split.
  - destruct (map_label_binary lab) as [->|[->| ->]]; auto.
  - intros Hnb. exfalso. apply Hnb.
    apply list_elem_of_filter in Hbin as [Hbreak Hbdf].
    by rewrite <- (NoDup_map_inj _ _ _ _ Hnd Hbdf Hqin Hidx).
Qed.

Lemma calculate_anomaly_scores_rows (self : t sk) (df : list FlaggedRow)
    (out : list ScoredRow) :
  calculate_anomaly_scores sk self df = Ok out → map scored_base out = df.
Proof.
  unfold calculate_anomaly_scores. case_decide as Hempty.
  { intros [= <-]. clear. induction df; simpl; by f_equal. }
  intros H.
  apply bind_Ok in H as (sc & _ & H).
  apply bind_Ok in H as (scaled & _ & H).
  apply bind_Ok in H as (fo & _ & H).
  apply bind_Ok in H as (scores & _ & H).
  apply set_column_ok in H as [Hlen ->].
  by apply zip_with_fst_eq.
Qed.
End anomaly_scorer.

(** C1 (the code departs from the claim). On a batch with at least one record
    and no [Break] record the Anomaly Scorer raises: [detect_anomalies] returns
    before fitting anything, [calculate_anomaly_scores] only guards against a
    frame without rows, and the scaler it then calls was never fitted. *)
Theorem score_without_breaks_raises (sk : sklearn) (df : list LinkedRow) :
  df ≠ [] →
  Forall (fun r : LinkedRow => Match_Status r ≠ "Break") df →
  AnomalyDetector.score sk df = Raise NotFittedError.
Proof.
  intros Hne Hnb. unfold AnomalyDetector.score.
  rewrite detect_anomalies_no_breaks by done.
  destruct df as [|r df]; [done|]. reflexivity.
Qed.

Lemma score_without_breaks_raises_witness :
  DataProcessor.full_pipeline matching_batch ≠ [] ∧
  Forall (fun r : LinkedRow => Match_Status r = "Match")
         (DataProcessor.full_pipeline matching_batch) ∧
  AnomalyDetector.score sklearn_stub (DataProcessor.full_pipeline matching_batch)
    = Raise NotFittedError.
Proof.
  split; [vm_compute; discriminate|].
  split; [vm_compute; repeat constructor|].
  apply (score_without_breaks_raises sklearn_stub
           (DataProcessor.full_pipeline matching_batch)).
  - vm_compute; discriminate.
  - vm_compute; repeat constructor; discriminate.
Defined.

(** Only a frame without any row gets through the scorer without a [Break]
    row. *)
Lemma score_empty (sk : sklearn) : AnomalyDetector.score sk [] = Ok [].
Proof. reflexivity. Qed.

(** C7. When the Anomaly Scorer has run on a frame whose index labels are
    distinct (as they are in a frame read from a file), it returns the records
    of the frame, each with [Is Anomaly] equal to 0 or 1, and equal to 0 on
    every record whose match status is [Match]. *)
Theorem is_anomaly_binary_and_zero_on_match (sk : sklearn)
    (df : list LinkedRow) (out : list ScoredRow) :
  NoDup (map (fun r : LinkedRow => index r) df) →
  AnomalyDetector.score sk df = Ok out →
  map (fun r : ScoredRow => flagged_base (scored_base r)) out = df ∧
  Forall (fun r : ScoredRow =>
    (Is_Anomaly r = 0 ∨ Is_Anomaly r = 1)%Z ∧
    (Match_Status r = "Match" → Is_Anomaly r = 0%Z)) out.
Proof.
  intros Hnd H. unfold AnomalyDetector.score in H.
  apply bind_Ok in H as ([self fl] & Hdet & Hsc).
  apply detect_anomalies_flags in Hdet as [Hrows Hflags];
    [|done].
  apply calculate_anomaly_scores_rows in Hsc.
  subst df fl. split.
  { clear. induction out; simpl; by f_equal. }
  clear Hnd. induction out as [|r out IH]; simpl in *; [constructor|].
  apply Forall_cons in Hflags as [[Hbin Hzero] Hflags].
  constructor; [|by apply IH].
  split; [exact Hbin|]. intros Hm. apply Hzero. rewrite Hm. discriminate.
Qed.

Lemma is_anomaly_binary_and_zero_on_match_witness :
  ∃ out,
    AnomalyDetector.score sklearn_stub (DataProcessor.full_pipeline sample_batch)
      = Ok out ∧
    map (fun r : ScoredRow => Is_Anomaly r) out = [0; 1]%Z ∧
    Forall (fun r : ScoredRow =>
      (Is_Anomaly r = 0 ∨ Is_Anomaly r = 1)%Z ∧
      (Match_Status r = "Match" → Is_Anomaly r = 0%Z)) out.
Proof.
  eexists. split; [vm_compute; reflexivity|].
  split; [reflexivity|].
  eapply proj2.
  apply (is_anomaly_binary_and_zero_on_match sklearn_stub
           (DataProcessor.full_pipeline sample_batch)).
  - apply (bool_decide_unpack _). vm_compute. exact I.
  - vm_compute; reflexivity.
Defined.

(** ** The Break Classifier *)

Section break_classifier.
Import HybridAnomalyClassifier.
Local Open Scope float_scope.

(** [classify_break] on a row with a status, a numeric difference and a
    numeric (possibly null) previous difference follows the rule table. *)
Lemma classify_break_rules (row : Series) (ms : string) (d p : float) :
  row !! "Match Status" = Some (VStr ms) →
  row !! "Balance Difference" = Some (VNum d) →
  row !! "Previous Balance Difference" = Some (VNum p) →
  ∃ l, classify_break row = Ok l ∧
       Rules.classify {| Rules.match_status := ms; Rules.d := d; Rules.p := p |}
         = Some l.
Proof.
  intros Hms Hd Hp. unfold classify_break, Py.getitem, Py.get.
  rewrite Hms, Hd, Hp.
  unfold Rules.classify.
  cbn [Rules.first_match Rules.table Rules.match_status Rules.d Rules.p].
  unfold Rules.small, Rules.large, Rules.variance_ratio, Py.notna, Py.abs,
    Py.sub, Py.sign.
  cbn [mbind result_bind bind Py.as_float Py.to_float Py.eq_str Py.isna
       default id
       thresholds small_difference large_difference significant_variance].
  destruct (bool_decide (ms = "Match")); [eauto|].
  destruct (F.isna p) eqn:Hna; cbn [negb mbind result_bind bind];
    destruct_ifs; eauto.
Qed.

(** Without the previous difference the default 0 is used, as a number. *)
Lemma classify_break_default (row : Series) (ms : string) (d : float) :
  row !! "Match Status" = Some (VStr ms) →
  row !! "Balance Difference" = Some (VNum d) →
  row !! "Previous Balance Difference" = None →
  classify_break row =
    classify_break (<["Previous Balance Difference" := VNum 0]> row).
Proof.
  intros Hms Hd Hp. unfold classify_break, Py.getitem, Py.get.
  rewrite lookup_insert_eq.
  rewrite !lookup_insert_ne by done.
  rewrite Hms, Hd, Hp. reflexivity.
Qed.

(** [classify_break] reads three columns only. *)
Lemma classify_break_insert (row : Series) (c : string) (v : value) :
  c ≠ "Match Status" → c ≠ "Balance Difference" →
  c ≠ "Previous Balance Difference" →
  classify_break (<[c := v]> row) = classify_break row.
Proof.
  intros H1 H2 H3. unfold classify_break, Py.getitem, Py.get.
  by rewrite !lookup_insert_ne.
Qed.

Lemma first_match_label rules r l :
  Rules.first_match rules r = Some l → l ∈ map snd rules.
Proof.
  induction rules as [|[holds label] rules IH]; simpl; [discriminate|].
  destruct (holds r).
  - intros [= <-]. left.
  - intros H. right. auto.
Qed.

Lemma classify_in_taxonomy r l : Rules.classify r = Some l → l ∈ taxonomy.
Proof. apply first_match_label. Qed.

(** Rule 3 is the only one that gives [New Difference], and it needs a null
    previous difference. *)
Lemma new_difference_needs_null r :
  Rules.classify r = Some "New Difference" → F.isna (Rules.p r) = true.
Proof.
  unfold Rules.classify. cbn -[PrimFloat.ltb PrimFloat.abs PrimFloat.sub
    PrimFloat.mul F.sign F.isna F.gtb F.neb bool_decide].
  destruct_ifs; try discriminate; auto.
Qed.

Lemma mapM_result_cons {A B} (f : A → result B) (a : A) (l : list A) :
  mapM_result f (a :: l) = (b ← f a; bs ← mapM_result f l; Ok (b :: bs)).
Proof. reflexivity. Qed.

Lemma set_cells_cons (c : string) row (df : list Series) v (col : list value) :
  set_cells c (row :: df) (v :: col) = <[c := v]> row :: set_cells c df col.
Proof. reflexivity. Qed.

(** Classifying rows that already carry their labels gives the same labels. *)
Lemma classify_labelled_rows (df : list Series) (labels : list string) :
  mapM_result classify_break df = Ok labels →
  mapM_result classify_break
    (set_cells "Break Classification" df (map VStr labels)) = Ok labels.
Proof.
  revert labels. induction df as [|row df IH]; intros labels H.
  { simpl in H. by injection H as <-. }
  rewrite mapM_result_cons in H.
  apply bind_Ok in H as (l & Hl & H). apply bind_Ok in H as (ls & Hls & H).
  injection H as <-.
  change (map VStr (l :: ls)) with (VStr l :: map VStr ls).
  rewrite set_cells_cons, mapM_result_cons.
  rewrite classify_break_insert by done.
  rewrite Hl, (IH _ Hls). reflexivity.
Qed.

Lemma set_cells_twice (c : string) (df : list Series) (col : list value) :
  set_cells c (set_cells c df col) col = set_cells c df col.
Proof.
  unfold set_cells. revert col.
  induction df as [|row df IH]; intros [|v col]; simpl; try reflexivity.
  by rewrite insert_insert_eq, IH.
Qed.

Lemma add_column_twice (c : string) (cols : list string) :
  add_column c (add_column c cols) = add_column c cols.
Proof.
  unfold add_column. destruct (bool_decide (c ∈ cols)) eqn:E.
  - by rewrite E.
  - rewrite bool_decide_eq_true_2; [done|]. set_solver.
Qed.

Lemma elem_of_add_column (c c' : string) (cols : list string) :
  c' ∈ cols → c' ∈ add_column c cols.
Proof. unfold add_column. case_bool_decide; set_solver. Qed.

Lemma classify_all_again (df df1 : Frame) :
  classify_all df = Ok df1 → classify_all df1 = Ok df1.
Proof.
  unfold classify_all. case_bool_decide as Hcol; [|discriminate].
  intros H. apply bind_Ok in H as (labels & Hlabels & H).
  injection H as <-. simpl.
  rewrite bool_decide_eq_true_2 by (by apply elem_of_add_column).
  rewrite (classify_labelled_rows _ _ Hlabels). simpl.
  by rewrite add_column_twice, set_cells_twice.
Qed.
End break_classifier.

(** The scenario of the specification: a break of 5.00 after a difference of
    0.00 is a [Significant Variance]. *)
Example scenario_row_label :
  HybridAnomalyClassifier.classify_break scenario_row = Ok "Significant Variance".
Proof. reflexivity. Qed.

(** Without the column of previous differences a row with a status and a
    numeric difference is classified, with the default 0 as a previous
    difference that is not null. *)
Lemma classify_break_without_previous (row : Series) (ms : string) (d : float) :
  row !! "Match Status" = Some (VStr ms) →
  row !! "Balance Difference" = Some (VNum d) →
  row !! "Previous Balance Difference" = None →
  ∃ l, HybridAnomalyClassifier.classify_break row = Ok l ∧
       HybridAnomalyClassifier.classify_break
         (<["Previous Balance Difference" := VNum 0]> row) = Ok l ∧
       Rules.classify
         {| Rules.match_status := ms; Rules.d := d; Rules.p := 0%float |}
         = Some l ∧
       l ≠ "New Difference".
Proof.
  intros Hms Hd Hp.
  rewrite (classify_break_default row ms d Hms Hd Hp).
  destruct (classify_break_rules
              (<["Previous Balance Difference" := VNum 0]> row) ms d 0%float)
    as (l & Hl & Hrule).
  - by rewrite !lookup_insert_ne.
  - by rewrite !lookup_insert_ne.
  - by rewrite lookup_insert_eq.
  - exists l. repeat split; auto. intros ->.
    by apply new_difference_needs_null in Hrule.
Qed.

Lemma classify_rows_without_previous (df : list Series) :
  Forall (fun row : Series =>
    (∃ ms, row !! "Match Status" = Some (VStr ms)) ∧
    (∃ d, row !! "Balance Difference" = Some (VNum d)) ∧
    row !! "Previous Balance Difference" = None) df →
  ∃ labels, mapM_result HybridAnomalyClassifier.classify_break df = Ok labels ∧
            Forall (fun l => l ≠ "New Difference") labels.
Proof.
  induction 1 as [|row df ([ms Hms] & [d Hd] & Hp) _ (labels & Hl & Hnew)].
  { exists []. split; [reflexivity | constructor]. }
  destruct (classify_break_without_previous row ms d Hms Hd Hp)
    as (l & Hrow & _ & _ & Hne).
  exists (l :: labels). split; [|by constructor].
  by rewrite mapM_result_cons, Hrow, Hl.
Qed.

Lemma set_cells_labels (c : string) (df : list Series) (labels : list string)
    (P : string → Prop) :
  Forall P labels →
  Forall (fun row : Series => ∃ l, row !! c = Some (VStr l) ∧ P l)
         (HybridAnomalyClassifier.set_cells c df (map VStr labels)).
Proof.
  intros H. revert df. induction H as [|l labels Hl _ IH]; intros [|row df];
    try constructor.
  - exists l. by rewrite lookup_insert_eq.
  - apply IH.
Qed.

Ltac label_in_taxonomy :=
  apply list_elem_of_In; simpl; tauto.

(** A float that is an infinity is above every threshold, and the default
    of the previous difference is not one. *)
Lemma infinity_is_large (x : float) :
  is_infinity x = true → F.gtb (abs x) 10000 = true.
Proof.
  unfold is_infinity, F.gtb. rewrite FloatAxioms.eqb_spec, FloatAxioms.ltb_spec.
  change (Prim2SF infinity) with (S754_infinity false).
  destruct (Prim2SF (abs x)) as [s|s| |s m e]; try destruct s; try done.
Qed.

Lemma zero_is_finite : is_infinity (Py.float_of_Z 0) = false.
Proof. reflexivity. Qed.

(** The outcome of [classify_break] on any row at all. *)
Lemma classify_break_cases (row : Series) :
  match HybridAnomalyClassifier.classify_break row with
  | Ok l => l ∈ HybridAnomalyClassifier.taxonomy
  | Raise e =>
      (e = KeyError "Match Status" ∧ row !! "Match Status" = None) ∨
      (e = KeyError "Balance Difference" ∧ row !! "Balance Difference" = None) ∨
      e = TypeError ∨
      (e = OverflowError ∧
       ∃ n, row !! "Previous Balance Difference" = Some (VInt n) ∧
            is_infinity (Py.float_of_Z n) = true)
  end.
Proof.
  unfold HybridAnomalyClassifier.classify_break, Py.getitem, Py.get,
    Py.abs, Py.sub, Py.sign, Py.notna.
  destruct (row !! "Match Status") as [ms|] eqn:Hms; [|by left].
  cbn [mbind result_bind bind].
  destruct (Py.eq_str ms "Match"); [label_in_taxonomy|].
  destruct (row !! "Balance Difference") as [cur|] eqn:Hcur;
    [|right; by left].
  cbn [mbind result_bind bind].
  destruct cur as [s|d|n|t]; cbn [Py.as_float Py.to_float mbind result_bind bind];
    try (right; right; by left);
    (destruct (row !! "Previous Balance Difference") as [[s'|p|n'|t']|];
     cbn [default id Py.isna Py.as_float Py.to_float negb mbind result_bind bind];
     try (right; right; by left);
     repeat (cbn [mbind result_bind bind];
             match goal with
             | H : is_infinity ?x = true, H' : F.gtb (abs ?x) _ = false |- _ =>
                 apply infinity_is_large in H;
                 cbn [HybridAnomalyClassifier.large_difference HybridAnomalyClassifier.thresholds] in H';
                 congruence
             | H : is_infinity (Py.float_of_Z 0) = true |- _ =>
                 rewrite zero_is_finite in H; discriminate
             | |- context [if ?b then _ else _] => destruct b eqn:?
             end);
     cbn [mbind result_bind bind];
     try (right; right; by left);
     try (right; right; right; split; [reflexivity | by eexists]);
     label_in_taxonomy).
Qed.

Lemma classify_break_label_in_taxonomy (row : Series) (l : string) :
  HybridAnomalyClassifier.classify_break row = Ok l →
  l ∈ HybridAnomalyClassifier.taxonomy.
Proof. intros H. pose proof (classify_break_cases row) as Hc. by rewrite H in Hc. Qed.

(** A record is classified, with the previous difference 0 when the row has
    no cell for it, as the rule table says. *)
Lemma classify_break_record (row : Series) (ms : string) (d : float)
    (prev : option float) :
  row !! "Match Status" = Some (VStr ms) →
  row !! "Balance Difference" = Some (VNum d) →
  row !! "Previous Balance Difference" = VNum <$> prev →
  ∃ l, HybridAnomalyClassifier.classify_break row = Ok l ∧
       Rules.classify
         {| Rules.match_status := ms; Rules.d := d;
            Rules.p := default 0%float prev |} = Some l.
Proof.
  intros Hms Hd Hp. destruct prev as [p|]; simpl in *.
  - exact (classify_break_rules row ms d p Hms Hd Hp).
  - destruct (classify_break_without_previous row ms d Hms Hd Hp)
      as (l & Hl & _ & Hrule & _).
    by exists l.
Qed.

Lemma classify_records (df : list Series) :
  Forall classifier_record df →
  ∃ labels, mapM_result HybridAnomalyClassifier.classify_break df = Ok labels.
Proof.
  induction 1 as [|row df ([ms Hms] & [d Hd] & [prev Hp]) _ [labels Hl]].
  { by exists []. }
  destruct (classify_break_record row ms d prev Hms Hd Hp) as (l & Hrow & _).
  exists (l :: labels). by rewrite mapM_result_cons, Hrow, Hl.
Qed.

(** The rows [classify_all] returns are the rows it was given, each with its
    label. *)
Lemma classify_all_labelled (df df1 : Frame) :
  HybridAnomalyClassifier.classify_all df = Ok df1 →
  columns df1
    = HybridAnomalyClassifier.add_column "Break Classification" (columns df) ∧
  Forall2 labelled (rows df) (rows df1).
Proof.
  unfold HybridAnomalyClassifier.classify_all.
  case_bool_decide as Hcol; [|discriminate].
  intros H. apply bind_Ok in H as (labels & Hlabels & H). injection H as <-.
  simpl. split; [reflexivity|].
  revert labels Hlabels.
  induction (rows df) as [|row rows IH]; intros labels Hlabels.
  { simpl in Hlabels. injection Hlabels as <-. constructor. }
  rewrite mapM_result_cons in Hlabels.
  apply bind_Ok in Hlabels as (l & Hl & H).
  apply bind_Ok in H as (ls & Hls & H). injection H as <-.
  change (map VStr (l :: ls)) with (VStr l :: map VStr ls).
  rewrite set_cells_cons. constructor; [|by apply IH].
  exists l. split; [exact Hl|]. split; [|reflexivity].
  pose proof (classify_break_cases row) as Hc. by rewrite Hl in Hc.
Qed.

(** C5. Break classification is total and deterministic. On every record
    with a status, a difference and a previous difference (a number, the
    null, or no cell, which stands for 0), [classify_break] returns a label:
    the label of the first rule of section 4.4 that holds, the comparisons
    being those of float64; it belongs to the taxonomy and is not
    [New Difference] unless the previous difference is the null. A record
    whose status is [Match] is [Within Tolerance] whatever else it holds. On
    a record set with its status column [classify_all] returns the set with
    these labels, row by row; whenever it returns, it has labelled every row
    it was given, and classifying what it returned gives that same set. *)
Theorem classification_total_and_deterministic :
  (∀ (row : Series) (ms : string) (d : float) (prev : option float),
     row !! "Match Status" = Some (VStr ms) →
     row !! "Balance Difference" = Some (VNum d) →
     row !! "Previous Balance Difference" = VNum <$> prev →
     ∃ l, HybridAnomalyClassifier.classify_break row = Ok l ∧
          Rules.classify
            {| Rules.match_status := ms; Rules.d := d;
               Rules.p := default 0%float prev |} = Some l ∧
          l ∈ HybridAnomalyClassifier.taxonomy ∧
          (∀ p, prev = Some p → F.isna p = false → l ≠ "New Difference") ∧
          (prev = Some 0%float → l ≠ "New Difference") ∧
          (prev = None → l ≠ "New Difference")) ∧
  (∀ row : Series,
     row !! "Match Status" = Some (VStr "Match") →
     HybridAnomalyClassifier.classify_break row = Ok "Within Tolerance") ∧
  (∀ df : Frame,
     "Match Status" ∈ columns df →
     Forall classifier_record (rows df) →
     ∃ df1, HybridAnomalyClassifier.classify_all df = Ok df1 ∧
            columns df1 =
              HybridAnomalyClassifier.add_column "Break Classification"
                (columns df) ∧
            Forall2 labelled (rows df) (rows df1) ∧
            HybridAnomalyClassifier.classify_all df1 = Ok df1) ∧
  (∀ df df1 : Frame,
     HybridAnomalyClassifier.classify_all df = Ok df1 →
     Forall2 labelled (rows df) (rows df1) ∧
     HybridAnomalyClassifier.classify_all df1 = Ok df1).
Proof.
  split; [|split; [|split]].
  - intros row ms d prev Hms Hd Hp.
    destruct (classify_break_record row ms d prev Hms Hd Hp)
      as (l & Hl & Hrule).
    exists l. split; [exact Hl|]. split; [exact Hrule|].
    split; [by apply classify_in_taxonomy in Hrule|].
    split; [|split].
    + intros p -> Hna ->. apply new_difference_needs_null in Hrule.
      simpl in Hrule. congruence.
    + intros -> ->. by apply new_difference_needs_null in Hrule.
    + intros -> ->. by apply new_difference_needs_null in Hrule.
  - intros row Hms.
    unfold HybridAnomalyClassifier.classify_break, Py.getitem.
    by rewrite Hms.
  - intros df Hcol Hrows.
    destruct (classify_records (rows df) Hrows) as [labels Hlabels].
    assert (∃ df1, HybridAnomalyClassifier.classify_all df = Ok df1)
      as [df1 Hdf1].
    { unfold HybridAnomalyClassifier.classify_all.
      rewrite bool_decide_eq_true_2 by done. rewrite Hlabels. by eexists. }
    exists df1. split; [exact Hdf1|].
    destruct (classify_all_labelled df df1 Hdf1) as [Hcols Hlab].
    split; [exact Hcols|]. split; [exact Hlab|].
    exact (classify_all_again df df1 Hdf1).
  - intros df df1 Hdf1. split.
    + exact (proj2 (classify_all_labelled df df1 Hdf1)).
    + exact (classify_all_again df df1 Hdf1).
Qed.

Lemma classification_total_and_deterministic_witness :
  (∃ l, HybridAnomalyClassifier.classify_break scenario_row = Ok l ∧
        Rules.classify
          {| Rules.match_status := "Break"; Rules.d := 5%float;
             Rules.p := 0%float |} = Some l ∧
        l ∈ HybridAnomalyClassifier.taxonomy ∧
        (∀ p, Some 0%float = Some p → F.isna p = false →
           l ≠ "New Difference") ∧
        (Some 0%float = Some 0%float → l ≠ "New Difference") ∧
        (Some 0%float = None → l ≠ "New Difference")) ∧
  (∃ df1, HybridAnomalyClassifier.classify_all scenario_frame = Ok df1 ∧
          columns df1 =
            HybridAnomalyClassifier.add_column "Break Classification"
              (columns scenario_frame) ∧
          Forall2 labelled (rows scenario_frame) (rows df1) ∧
          HybridAnomalyClassifier.classify_all df1 = Ok df1).
Proof.
  split.
  - apply (proj1 classification_total_and_deterministic
             scenario_row "Break" 5%float (Some 0%float));
      reflexivity.
  - apply (proj1 (proj2 (proj2 classification_total_and_deterministic))
             scenario_frame).
    + vm_compute. apply list_elem_of_In. simpl. tauto.
    + repeat constructor; try (by eexists);
        try (by exists (Some nan)); by exists (Some 0%float).
Defined.

(** A break of 1.05 after a difference of 0.70: with decimal amounts rule 5
    does not hold, since [|d - p| = 0.35] is not above [0.5 * |p| = 0.35],
    and the record is a [Moderate Difference]; [classify_break] on the
    floats 1.05 and 0.7 compares 0.35000000000000009 with
    0.34999999999999998 and returns [Significant Variance]. *)
Lemma variance_on_the_threshold :
  Decimal.classify
    {| Decimal.match_status := "Break"; Decimal.d := 105;
       Decimal.p := Some 70%Z |} = Some "Moderate Difference" ∧
  threshold_row !! "Match Status" = Some (VStr "Break") ∧
  threshold_row !! "Balance Difference" = Some (VNum 1.05) ∧
  threshold_row !! "Previous Balance Difference" = Some (VNum 0.7) ∧
  (abs (1.05 - 0.7) = 0.35000000000000009)%float ∧
  (0.5 * abs 0.7 = 0.34999999999999998)%float ∧
  HybridAnomalyClassifier.classify_break threshold_row
    = Ok "Significant Variance".
Proof. repeat split; vm_compute; reflexivity. Qed.

(** C10. A row without the [Previous Balance Difference] field (with a status
    and a numeric difference) is classified without raising, exactly as if the
    field held 0, and never as [New Difference]. On a frame of such rows
    [classify_all] raises exactly when the [Match Status] column is missing,
    and no row it labels is a [New Difference]. *)
Theorem missing_previous_defaults_to_zero :
  (∀ (row : Series) (ms : string) (d : float),
     row !! "Match Status" = Some (VStr ms) →
     row !! "Balance Difference" = Some (VNum d) →
     row !! "Previous Balance Difference" = None →
     ∃ l, HybridAnomalyClassifier.classify_break row = Ok l ∧
          HybridAnomalyClassifier.classify_break
            (<["Previous Balance Difference" := VNum 0]> row) = Ok l ∧
          Rules.classify
            {| Rules.match_status := ms; Rules.d := d; Rules.p := 0%float |}
            = Some l ∧
          l ≠ "New Difference") ∧
  (∀ df : Frame,
     Forall (fun row : Series =>
       ("Match Status" ∈ columns df →
          ∃ ms, row !! "Match Status" = Some (VStr ms)) ∧
       (∃ d, row !! "Balance Difference" = Some (VNum d)) ∧
       row !! "Previous Balance Difference" = None) (rows df) →
     (raises (HybridAnomalyClassifier.classify_all df) ↔
        "Match Status" ∉ columns df) ∧
     (∀ df1, HybridAnomalyClassifier.classify_all df = Ok df1 →
        Forall (fun row : Series =>
          ∃ l, row !! "Break Classification" = Some (VStr l) ∧
               l ≠ "New Difference") (rows df1))).
Proof.
  split; [exact classify_break_without_previous|].
  intros df Hrows. unfold HybridAnomalyClassifier.classify_all.
  case_bool_decide as Hcol.
  - destruct (classify_rows_without_previous (rows df)) as (labels & -> & Hnew).
    { eapply Forall_impl; [exact Hrows|]. intros row (Hms & Hd & Hp). auto. }
    split.
    + split; [intros [e He]; discriminate | done].
    + intros df1 [= <-]. simpl. by apply set_cells_labels.
  - split; [|discriminate]. split; [done|]. intros _. by eexists.
Qed.

Lemma missing_previous_defaults_to_zero_witness :
  (∃ l, HybridAnomalyClassifier.classify_break unlinked_row = Ok l ∧
        HybridAnomalyClassifier.classify_break
          (<["Previous Balance Difference" := VNum 0]> unlinked_row) = Ok l ∧
        Rules.classify
          {| Rules.match_status := "Break"; Rules.d := 5%float;
             Rules.p := 0%float |} = Some l ∧
        l ≠ "New Difference") ∧
  (raises (HybridAnomalyClassifier.classify_all unlinked_frame) ↔
     "Match Status" ∉ columns unlinked_frame).
Proof.
  split.
  - apply (proj1 missing_previous_defaults_to_zero unlinked_row "Break" 5%float);
      reflexivity.
  - apply (proj2 missing_previous_defaults_to_zero unlinked_frame).
    repeat constructor; try reflexivity; by eexists.
Defined.

(** ** Records produced by the pipeline *)

Lemma full_pipeline_row (df : list CleanRow) (r : LinkedRow) :
  r ∈ DataProcessor.full_pipeline df →
  ∃ k, linked_base r = DataProcessor.difference_row k.
Proof.
  unfold DataProcessor.full_pipeline, DataProcessor.add_previous_differences.
  intros Hr. apply elem_of_zip_with in Hr as (q & p & Hq & _ & ->).
  unfold DataProcessor.calculate_differences in Hq.
  apply list_elem_of_In, in_map_iff in Hq as (k & <- & _). by exists k.
Qed.

(** A record of the pipeline is a [Match] exactly when its difference is
    below 1 in absolute value. *)
Lemma full_pipeline_match_status (df : list CleanRow) (r : LinkedRow) :
  r ∈ DataProcessor.full_pipeline df →
  Match_Status r =
    if (abs (Balance_Difference r) <? 1)%float then "Match" else "Break".
Proof.
  intros Hr. destruct (full_pipeline_row df r Hr) as [k Hk].
  by rewrite Hk.
Qed.

Lemma to_series_classifier_columns (r : ScoredRow) :
  ReconciliationWorkflow.to_series r !! "Match Status"
    = Some (VStr (Match_Status r)) ∧
  ReconciliationWorkflow.to_series r !! "Balance Difference"
    = Some (VNum (Balance_Difference r)) ∧
  ReconciliationWorkflow.to_series r !! "Previous Balance Difference"
    = Some (VNum (Previous_Balance_Difference r)).
Proof. repeat split; reflexivity. Qed.

(** C6, as the code has it. A record of the pipeline with
    [Balance Difference = 0.50] has match status [Match] and is labelled
    [Within Tolerance], whatever its previous difference; [Small Difference] is
    the label of a row with [Balance Difference = 0.50] whose status is not
    [Match], whatever its previous difference (absent, null or a number). *)
Theorem half_unit_difference_label :
  (∀ (df : list CleanRow) (r : ScoredRow),
     flagged_base (scored_base r) ∈ DataProcessor.full_pipeline df →
     Balance_Difference r = 0.5%float →
     Match_Status r = "Match" ∧
     HybridAnomalyClassifier.classify_break (ReconciliationWorkflow.to_series r)
       = Ok "Within Tolerance") ∧
  (∀ (row : Series) (ms : string) (prev : option float),
     row !! "Match Status" = Some (VStr ms) →
     ms ≠ "Match" →
     row !! "Balance Difference" = Some (VNum 0.5) →
     row !! "Previous Balance Difference" = VNum <$> prev →
     HybridAnomalyClassifier.classify_break row = Ok "Small Difference").
Proof.
  split.
  - intros df r Hr Hd.
    pose proof (full_pipeline_match_status df _ Hr) as Hms.
    rewrite Hd in Hms. change (Match_Status r = "Match") in Hms.
    split; [exact Hms|].
    destruct (to_series_classifier_columns r) as (Hc & _ & _).
    unfold HybridAnomalyClassifier.classify_break, Py.getitem.
    rewrite Hc, Hms. reflexivity.
  - intros row ms prev Hms Hne Hd Hp.
    unfold HybridAnomalyClassifier.classify_break, Py.getitem, Py.get.
    rewrite Hms, Hd, Hp. simpl.
    rewrite bool_decide_eq_false_2 by done.
    destruct prev as [p|]; simpl; [|reflexivity].
    unfold Py.notna. simpl. destruct (F.isna p); reflexivity.
Qed.

Lemma half_unit_difference_label_witness :
  (Match_Status half_unit_record = "Match" ∧
   HybridAnomalyClassifier.classify_break
     (ReconciliationWorkflow.to_series half_unit_record)
     = Ok "Within Tolerance") ∧
  HybridAnomalyClassifier.classify_break half_unit_break_row
    = Ok "Small Difference".
Proof.
  split.
  - apply (proj1 half_unit_difference_label half_unit_batch half_unit_record).
    + vm_compute. left.
    + reflexivity.
  - apply (proj2 half_unit_difference_label half_unit_break_row "Break"
             (Some 1234%float)); [reflexivity | discriminate | reflexivity..].
Defined.

(** C6, as the specification states it, fails: the pipeline (run with the
    stand-in estimators) turns the first record of [half_unit_batch] into a
    record with [Balance Difference = 0.50], and the classifier labels it
    [Within Tolerance], not [Small Difference]. *)
Lemma half_unit_record_is_not_a_small_difference :
  ∃ (out : list ScoredRow) (r : ScoredRow),
    AnomalyDetector.score sklearn_stub
      (DataProcessor.full_pipeline half_unit_batch) = Ok out ∧
    out !! 0%nat = Some r ∧
    Balance_Difference r = 0.5%float ∧
    HybridAnomalyClassifier.classify_break (ReconciliationWorkflow.to_series r)
      = Ok "Within Tolerance" ∧
    HybridAnomalyClassifier.classify_break (ReconciliationWorkflow.to_series r)
      ≠ Ok "Small Difference".
Proof.
  eexists. eexists.
  split; [vm_compute; reflexivity|].
  split; [reflexivity|].
  split; [reflexivity|].
  split; [reflexivity | discriminate].
Qed.

(** ** The workflow without a token *)

(** C2 (the code departs from the claim). Without a token
    [generate_break_comments] takes its placeholder branch, whose first step
    reads the name [np]; [ai_insights.py] never binds it, so the call raises
    [NameError] on every frame and [execute] reports failure on every batch:
    nothing is written. *)
Theorem execute_without_token_fails (sk : sklearn) (co : collaborators) :
  (∀ df : Frame,
     AIIInsightsGenerator.generate_break_comments co
       {| AIIInsightsGenerator.llm_chain := None |} df
     = Raise (NameError "np")) ∧
  (∀ df : list CleanRow, ReconciliationWorkflow.execute sk co None df = false).
Proof.
  split; [reflexivity|].
  intros df. unfold ReconciliationWorkflow.execute, ReconciliationWorkflow.run.
  destruct (AnomalyDetector.score sk (DataProcessor.full_pipeline df))
    as [scored|e]; [|reflexivity].
  simpl.
  destruct (HybridAnomalyClassifier.classify_all
              (ReconciliationWorkflow.to_frame scored)) as [classified|e];
    reflexivity.
Qed.

(** The batch of the scenario, with estimators that work, still fails. *)
Example execute_sample_batch_without_token (co : collaborators) :
  ReconciliationWorkflow.execute sklearn_stub co None sample_batch = false.
Proof. reflexivity. Qed.

(** ** Sorting by key and date *)

Section sort_values.
Import DataProcessor.

Lemma ascii_compare_lt_trans (a b c : Ascii.ascii) :
  Ascii.compare a b = Lt → Ascii.compare b c = Lt → Ascii.compare a c = Lt.
Proof.
  unfold Ascii.compare. rewrite !N.compare_lt_iff. lia.
Qed.

Lemma string_compare_lt_trans (s1 s2 s3 : string) :
  String.compare s1 s2 = Lt → String.compare s2 s3 = Lt →
  String.compare s1 s3 = Lt.
Proof.
  revert s2 s3. induction s1 as [|a s1 IH]; intros [|b s2] [|c s3];
    simpl; try done.
  destruct (Ascii.compare a b) eqn:Hab; try done;
    destruct (Ascii.compare b c) eqn:Hbc; try done.
  - apply Ascii.compare_eq_iff in Hab, Hbc. subst.
    assert (Ascii.compare c c = Eq) as ->.
    { unfold Ascii.compare. apply N.compare_refl. }
    apply IH.
  - apply Ascii.compare_eq_iff in Hab. subst. by rewrite Hbc.
  - apply Ascii.compare_eq_iff in Hbc. subst. by rewrite Hab.
  - by rewrite (ascii_compare_lt_trans a b c).
Qed.

Lemma string_compare_refl (s : string) : String.compare s s = Eq.
Proof.
  induction s as [|a s IH]; simpl; [done|].
  assert (Ascii.compare a a = Eq) as ->; [|done].
  unfold Ascii.compare. apply N.compare_refl.
Qed.

#[local] Instance row_le_total : Total row_le.
Proof.
  intros a b. unfold row_le, row_leb.
  rewrite (String.compare_antisym (CompositeKey b)).
  destruct (String.compare (CompositeKey a) (CompositeKey b)) eqn:E; simpl;
    auto.
  assert (Hle : (AsofDate a <= AsofDate b)%Z ∨ (AsofDate b <= AsofDate a)%Z)
    by lia.
  destruct Hle; [left | right]; by apply Z.leb_le.
Qed.

#[local] Instance row_le_trans : Transitive row_le.
Proof.
  intros a b c. unfold row_le, row_leb.
  destruct (String.compare (CompositeKey a) (CompositeKey b)) eqn:Eab;
    try done;
    destruct (String.compare (CompositeKey b) (CompositeKey c)) eqn:Ebc;
    try done; intros Hab Hbc.
  - apply String.compare_eq_iff in Eab, Ebc. rewrite Eab, Ebc.
    rewrite string_compare_refl. apply Z.leb_le.
    apply Z.leb_le in Hab, Hbc. lia.
  - apply String.compare_eq_iff in Eab. by rewrite Eab, Ebc.
  - apply String.compare_eq_iff in Ebc. by rewrite <- Ebc, Eab.
  - by rewrite (string_compare_lt_trans _ _ _ Eab Ebc).
Qed.

(** Rows with the same key are ordered by their dates. *)
Lemma row_le_same_key (a b : KeyedRow) :
  CompositeKey a = CompositeKey b → row_le a b → date_le a b.
Proof.
  unfold row_le, row_leb, date_le. intros ->.
  rewrite string_compare_refl. apply Z.leb_le.
Qed.

Lemma insert_row_perm (x : KeyedRow) (l : list KeyedRow) :
  insert_row x l ≡ₚ x :: l.
Proof.
  induction l as [|y l IH]; simpl; [done|].
  destruct (row_leb x y); [done|].
  rewrite IH. apply Permutation_swap.
Qed.

Lemma sort_values_perm (l : list KeyedRow) : sort_values l ≡ₚ l.
Proof.
  induction l as [|x l IH]; simpl; [done|].
  by rewrite insert_row_perm, IH.
Qed.

Lemma insert_row_sorted (x : KeyedRow) (l : list KeyedRow) :
  Sorted row_le l → Sorted row_le (insert_row x l).
Proof.
  induction 1 as [|y l Hl IH Hhd]; simpl.
  { repeat constructor. }
  destruct (row_leb x y) eqn:E.
  - constructor; [by constructor|]. by constructor.
  - constructor; [exact IH|].
    assert (row_le y x) as Hyx.
    { destruct (total row_le x y) as [H|H]; [|done].
      unfold row_le in H. congruence. }
    destruct Hhd as [|z l Hyz]; simpl; [by constructor|].
    destruct (row_leb x z); by constructor.
Qed.

Lemma sort_values_sorted (l : list KeyedRow) : Sorted row_le (sort_values l).
Proof.
  induction l as [|x l IH]; simpl; [constructor|].
  by apply insert_row_sorted.
Qed.

Lemma sort_values_strongly_sorted (l : list KeyedRow) :
  StronglySorted row_le (sort_values l).
Proof. apply Sorted_StronglySorted; [apply _ | apply sort_values_sorted]. Qed.

(** Sorting a sorted frame changes nothing: the sort is stable. *)
Lemma sort_values_of_sorted (l : list KeyedRow) :
  Sorted row_le l → sort_values l = l.
Proof.
  induction 1 as [|x l Hl IH Hhd]; [done|].
  change (sort_values (x :: l)) with (insert_row x (sort_values l)).
  rewrite IH.
  destruct Hhd as [|y l Hxy]; simpl; [done|].
  unfold row_le in Hxy. by rewrite Hxy.
Qed.
End sort_values.

(** ** Temporal linkage *)

Section temporal_linkage.
Import DataProcessor.

Lemma groupby_shift_length last (df : list DiffRow) :
  length (groupby_shift last df) = length df.
Proof.
  revert last. induction df as [|r df IH]; intros last; simpl; [done|].
  by rewrite IH.
Qed.

Lemma add_previous_differences_rows (df : list DiffRow) :
  map linked_base (add_previous_differences df) = df.
Proof.
  unfold add_previous_differences.
  apply zip_with_fst_eq; [done | apply groupby_shift_length].
Qed.

(** The pipeline keeps the rows [preprocess_data] sorted, in their order. *)
Lemma full_pipeline_keyed (df : list CleanRow) :
  map (fun r : LinkedRow => diff_base (linked_base r)) (full_pipeline df)
    = preprocess_data df.
Proof.
  unfold full_pipeline.
  rewrite <- (calculate_differences_rows (preprocess_data df)) at 2.
  rewrite <- (add_previous_differences_rows
                (calculate_differences (preprocess_data df))) at 2.
  generalize (add_previous_differences
                (calculate_differences (preprocess_data df))).
  induction l; simpl; by f_equal.
Qed.

Lemma group_cons (k : string) (r : LinkedRow) (df : list LinkedRow) :
  group k (r :: df) =
    if decide (CompositeKey r = k) then r :: group k df else group k df.
Proof. unfold group. rewrite filter_cons. reflexivity. Qed.

(** Within the rows of one key the shifted column is a chain that starts with
    the value recorded for the key, or with the null. *)
Lemma groupby_shift_chained (last : gmap string float) (df : list DiffRow)
    (k : string) :
  chained (default nan (last !! k))
          (group k (zip_with link_row df (groupby_shift last df))).
Proof.
  revert last. induction df as [|r df IH]; intros last; [exact I|].
  change (zip_with link_row (r :: df) (groupby_shift last (r :: df)))
    with (link_row r (default nan (last !! CompositeKey r))
          :: zip_with link_row df
               (groupby_shift (<[CompositeKey r := Balance_Difference r]> last)
                              df)).
  rewrite group_cons.
  specialize (IH (<[CompositeKey r := Balance_Difference r]> last)).
  change (CompositeKey (link_row r (default nan (last !! CompositeKey r))))
    with (CompositeKey r).
  case_decide as Hk.
  - subst k. rewrite lookup_insert_eq in IH. simpl. auto.
  - by rewrite lookup_insert_ne in IH.
Qed.

Lemma chained_lookup (prev : float) (g : list LinkedRow) (i : nat)
    (r : LinkedRow) :
  chained prev g → g !! i = Some r →
  Previous_Balance_Difference r =
    match i with
    | O => prev
    | S j =>
        default nan ((fun q : LinkedRow => Balance_Difference q) <$> g !! j)
    end ∧
  Difference_Change r =
    (Balance_Difference r - Previous_Balance_Difference r)%float.
Proof.
  revert prev i. induction g as [|q g IH]; intros prev i; [done|].
  intros (Hp & Hc & Hg). destruct i as [|i]; simpl.
  - intros [= <-]. by rewrite Hc, Hp.
  - intros Hr. destruct (IH _ _ Hg Hr) as [Hprev Hchange].
    split; [|done]. rewrite Hprev. by destruct i.
Qed.

Lemma StronglySorted_map_inv {A B} (R : relation B) (f : A → B) (l : list A) :
  StronglySorted R (map f l) → StronglySorted (fun a b => R (f a) (f b)) l.
Proof.
  induction l as [|a l IH]; simpl; [constructor|].
  intros H. apply StronglySorted_inv in H as [Hl Ha].
  constructor; [auto|]. clear -Ha. 
  induction l as [|b l IH]; simpl in *; [constructor|].
  apply Forall_cons in Ha as [? ?]. constructor; auto.
Qed.

Lemma StronglySorted_filter_weaken {A} (R R' : relation A) (P : A → Prop)
    `{!∀ x, Decision (P x)} (l : list A) :
  (∀ a b, P a → P b → R a b → R' a b) →
  StronglySorted R l → StronglySorted R' (filter P l).
Proof.
  intros HR. induction 1 as [|a l Hl IH Ha]; [constructor|].
  rewrite filter_cons. case_decide as HPa; [|done].
  constructor; [done|].
  apply Forall_forall. intros b Hb.
  apply list_elem_of_filter in Hb as [HPb Hb].
  apply HR; auto. rewrite Forall_forall in Ha. auto.
Qed.

Lemma group_sorted_by_date (df : list CleanRow) (k : string) :
  StronglySorted (fun a b : LinkedRow => date_le a b)
                 (group k (full_pipeline df)).
Proof.
  unfold group.
  apply (StronglySorted_filter_weaken
           (fun a b : LinkedRow => row_le a b)).
  { intros a b Ha Hb. apply row_le_same_key. congruence. }
  apply (StronglySorted_map_inv row_le
           (fun r : LinkedRow => diff_base (linked_base r))).
  rewrite full_pipeline_keyed. apply sort_values_strongly_sorted.
Qed.

Lemma filter_ext_in {A} (P Q : A → Prop) `{!∀ x, Decision (P x)}
    `{!∀ x, Decision (Q x)} (l : list A) :
  (∀ x, x ∈ l → (P x ↔ Q x)) → filter P l = filter Q l.
Proof.
  induction l as [|a l IH]; intros HPQ; [done|].
  rewrite !filter_cons.
  assert (P a ↔ Q a) as Ha by (apply HPQ; left).
  rewrite IH by (intros x Hx; apply HPQ; by right).
  destruct (decide (P a)), (decide (Q a)); tauto.
Qed.

Lemma map_filter_comm {A B} (f : A → B) (P : B → Prop)
    `{!∀ x, Decision (P x)} (l : list A) :
  map f (filter (fun a => P (f a)) l) = filter P (map f l).
Proof.
  induction l as [|a l IH]; simpl; [done|].
  rewrite !filter_cons. case_decide; simpl; by rewrite IH.
Qed.

Lemma group_rows (df : list CleanRow) (k : string) :
  map (fun r : LinkedRow => diff_base (linked_base r))
      (group k (full_pipeline df))
  ≡ₚ filter (fun r : KeyedRow => CompositeKey r = k) (map preprocess_row df).
Proof.
  assert (map (fun r : LinkedRow => diff_base (linked_base r))
              (group k (full_pipeline df))
          = filter (fun r : KeyedRow => CompositeKey r = k)
              (map (fun r : LinkedRow => diff_base (linked_base r))
                   (full_pipeline df))) as ->.
  { exact (map_filter_comm (fun r : LinkedRow => diff_base (linked_base r))
             (fun r : KeyedRow => CompositeKey r = k) (full_pipeline df)). }
  rewrite full_pipeline_keyed. unfold preprocess_data.
  by rewrite sort_values_perm.
Qed.
End temporal_linkage.

(** The key of a row of the pipeline is the concatenation of its identity
    fields. *)
Lemma full_pipeline_keys (df : list CleanRow) (r : LinkedRow) :
  r ∈ DataProcessor.full_pipeline df →
  CompositeKey r = DataProcessor.composite_key r.
Proof.
  intros Hr.
  assert (diff_base (linked_base r) ∈ DataProcessor.preprocess_data df) as Hk.
  { rewrite <- full_pipeline_keyed.
    apply list_elem_of_In, in_map_iff. exists r.
    split; [done | by apply list_elem_of_In]. }
  unfold DataProcessor.preprocess_data in Hk.
  rewrite sort_values_perm in Hk.
  apply list_elem_of_In, in_map_iff in Hk as (c & Hc & _).
  change (CompositeKey (diff_base (linked_base r))
          = DataProcessor.composite_key
              (keyed_base (diff_base (linked_base r)))).
  by rewrite <- Hc.
Qed.

(** ** The Difference Engine on columns of either dtype *)

Section dtyped_engine.
Import Dtyped.

Lemma dtyped_calculate_differences_rows (df : list KeyedRow) :
  map diff_base (calculate_differences df) = df.
Proof.
  unfold calculate_differences. rewrite map_map. simpl. apply map_id.
Qed.

(** A wrapped value is one of the three whole numbers that differ from the
    exact one by a multiple of 2^64, the one in the range of [int64]. *)
Lemma wrap_range (z : Z) : int64 (Num.wrap z).
Proof.
  unfold int64, Num.wrap.
  pose proof (Z.mod_pos_bound (z + 2 ^ 63) (2 ^ 64)). lia.
Qed.

Lemma wrap_int64 (z : Z) : int64 z → Num.wrap z = z.
Proof.
  unfold int64, Num.wrap. intros Hz.
  rewrite Z.mod_small; lia.
Qed.

Lemma wrap_difference (a b : Z) :
  int64 a → int64 b →
  (Num.wrap (a - b) = a - b ∨ Num.wrap (a - b) = a - b + 2 ^ 64 ∨
   Num.wrap (a - b) = a - b - 2 ^ 64)%Z.
Proof.
  unfold int64, Num.wrap. intros Ha Hb.
  pose proof (Z.mod_pos_bound (a - b + 2 ^ 63) (2 ^ 64)) as Hm.
  pose proof (Z.div_mod (a - b + 2 ^ 63) (2 ^ 64)) as Hd.
  assert ((a - b + 2 ^ 63) `div` 2 ^ 64 = 0 ∨
          (a - b + 2 ^ 63) `div` 2 ^ 64 = 1 ∨
          (a - b + 2 ^ 63) `div` 2 ^ 64 = -1)%Z as Hq by lia.
  lia.
Qed.

(** On int64 columns the test [Abs Difference < 1] holds when the balances
    are equal, and also when they are 2^63 apart. *)
Lemma int64_within_tolerance (a b : Z) :
  int64 a → int64 b →
  Num.lt_one (Num.abs (Num.sub (Int64 a) (Int64 b))) = true ↔
  (Z.abs (a - b) < 1 ∨ Z.abs (a - b) = 2 ^ 63)%Z.
Proof.
  intros Ha Hb. simpl. rewrite Z.ltb_lt.
  pose proof (wrap_range (a - b)) as Hr.
  pose proof (wrap_difference a b Ha Hb) as Hw.
  set (w := Num.wrap (a - b)) in *.
  destruct (decide (w = - 2 ^ 63)%Z) as [Hmin|Hmin].
  - rewrite Hmin. change (Num.wrap (Z.abs (- 2 ^ 63)) < 1)%Z with (- 2 ^ 63 < 1)%Z.
    unfold int64 in *. lia.
  - rewrite wrap_int64 by (unfold int64 in *; lia).
    unfold int64 in *. lia.
Qed.

Section sorting.
#[local] Instance dtyped_row_le_total : Total row_le.
Proof.
  intros a b. unfold row_le, row_leb.
  rewrite (String.compare_antisym (CompositeKey b)).
  destruct (String.compare (CompositeKey a) (CompositeKey b)) eqn:E; simpl;
    auto.
  assert (Hle : (AsofDate a <= AsofDate b)%Z ∨ (AsofDate b <= AsofDate a)%Z)
    by lia.
  destruct Hle; [left | right]; by apply Z.leb_le.
Qed.

#[local] Instance dtyped_row_le_trans : Transitive row_le.
Proof.
  intros a b c. unfold row_le, row_leb.
  destruct (String.compare (CompositeKey a) (CompositeKey b)) eqn:Eab;
    try done;
    destruct (String.compare (CompositeKey b) (CompositeKey c)) eqn:Ebc;
    try done; intros Hab Hbc.
  - apply String.compare_eq_iff in Eab, Ebc. rewrite Eab, Ebc.
    rewrite string_compare_refl. apply Z.leb_le.
    apply Z.leb_le in Hab, Hbc. lia.
  - apply String.compare_eq_iff in Eab. by rewrite Eab, Ebc.
  - apply String.compare_eq_iff in Ebc. by rewrite <- Ebc, Eab.
  - by rewrite (string_compare_lt_trans _ _ _ Eab Ebc).
Qed.

Lemma dtyped_row_le_same_key (a b : KeyedRow) :
  CompositeKey a = CompositeKey b → row_le a b → date_le a b.
Proof.
  unfold row_le, row_leb, date_le. intros ->.
  rewrite string_compare_refl. apply Z.leb_le.
Qed.

Lemma dtyped_insert_row_perm (x : KeyedRow) (l : list KeyedRow) :
  insert_row x l ≡ₚ x :: l.
Proof.
  induction l as [|y l IH]; simpl; [done|].
  destruct (row_leb x y); [done|].
  rewrite IH. apply Permutation_swap.
Qed.

Lemma dtyped_sort_values_perm (l : list KeyedRow) : sort_values l ≡ₚ l.
Proof.
  induction l as [|x l IH]; simpl; [done|].
  by rewrite dtyped_insert_row_perm, IH.
Qed.

Lemma dtyped_insert_row_sorted (x : KeyedRow) (l : list KeyedRow) :
  Sorted row_le l → Sorted row_le (insert_row x l).
Proof.
  induction 1 as [|y l Hl IH Hhd]; simpl.
  { repeat constructor. }
  destruct (row_leb x y) eqn:E.
  - constructor; [by constructor|]. by constructor.
  - constructor; [exact IH|].
    assert (row_le y x) as Hyx.
    { destruct (total row_le x y) as [H|H]; [|done].
      unfold row_le in H. congruence. }
    destruct Hhd as [|z l Hyz]; simpl; [by constructor|].
    destruct (row_leb x z); by constructor.
Qed.

Lemma dtyped_sort_values_strongly_sorted (l : list KeyedRow) :
  StronglySorted row_le (sort_values l).
Proof.
  apply Sorted_StronglySorted; [apply _|].
  induction l as [|x l IH]; simpl; [constructor|].
  by apply dtyped_insert_row_sorted.
Qed.
End sorting.

Lemma dtyped_groupby_shift_length last (df : list DiffRow) :
  length (groupby_shift last df) = length df.
Proof.
  revert last. induction df as [|r df IH]; intros last; simpl; [done|].
  by rewrite IH.
Qed.

(** The pipeline keeps the rows [preprocess_data] sorted, in their order. *)
Lemma dtyped_full_pipeline_keyed (df : list CleanRow) :
  map (fun r : LinkedRow => diff_base (linked_base r)) (full_pipeline df)
    = preprocess_data df.
Proof.
  unfold full_pipeline.
  rewrite <- (dtyped_calculate_differences_rows (preprocess_data df)) at 2.
  assert (∀ l : list DiffRow, map linked_base (add_previous_differences l) = l)
    as Hrows.
  { intros l. unfold add_previous_differences.
    apply zip_with_fst_eq; [done | apply dtyped_groupby_shift_length]. }
  rewrite <- (Hrows (calculate_differences (preprocess_data df))) at 2.
  generalize (add_previous_differences
                (calculate_differences (preprocess_data df))).
  induction l; simpl; by f_equal.
Qed.

(** The key column holds the identity key of each row. *)
Lemma dtyped_full_pipeline_keys (df : list CleanRow) (r : LinkedRow) :
  r ∈ full_pipeline df → CompositeKey r = identity_key r.
Proof.
  intros Hr.
  assert (diff_base (linked_base r) ∈ preprocess_data df) as Hk.
  { rewrite <- dtyped_full_pipeline_keyed.
    apply list_elem_of_In, in_map_iff. exists r.
    split; [done | by apply list_elem_of_In]. }
  unfold preprocess_data in Hk.
  rewrite dtyped_sort_values_perm in Hk.
  apply list_elem_of_In, in_map_iff in Hk as (c & Hc & _).
  change (CompositeKey (diff_base (linked_base r))
          = identity_key (keyed_base (diff_base (linked_base r)))).
  by rewrite <- Hc.
Qed.

(** The rows of one identity key are the rows under one key of the key
    column. *)
Lemma series_group (df : list CleanRow) (k : string) :
  series k (full_pipeline df) = group k (full_pipeline df).
Proof.
  unfold series, group. apply filter_ext_in.
  intros r Hr. by rewrite (dtyped_full_pipeline_keys df r Hr).
Qed.

Lemma dtyped_group_cons (k : string) (r : LinkedRow) (df : list LinkedRow) :
  group k (r :: df) =
    if decide (CompositeKey r = k) then r :: group k df else group k df.
Proof. unfold group. rewrite filter_cons. reflexivity. Qed.

(** Within the rows of one key the shifted column is a chain that starts with
    the value recorded for the key, or with the null. *)
Lemma dtyped_groupby_shift_chained (last : gmap string float)
    (df : list DiffRow) (k : string) :
  chained (default nan (last !! k))
          (group k (zip_with link_row df (groupby_shift last df))).
Proof.
  revert last. induction df as [|r df IH]; intros last; [exact I|].
  change (zip_with link_row (r :: df) (groupby_shift last (r :: df)))
    with (link_row r (default nan (last !! CompositeKey r))
          :: zip_with link_row df
               (groupby_shift
                  (<[CompositeKey r := Num.to_float (Balance_Difference r)]>
                     last) df)).
  rewrite dtyped_group_cons.
  specialize
    (IH (<[CompositeKey r := Num.to_float (Balance_Difference r)]> last)).
  change (CompositeKey (link_row r (default nan (last !! CompositeKey r))))
    with (CompositeKey r).
  case_decide as Hk.
  - subst k. rewrite lookup_insert_eq in IH. simpl. auto.
  - by rewrite lookup_insert_ne in IH.
Qed.

Lemma dtyped_chained_lookup (prev : float) (g : list LinkedRow) (i : nat)
    (r : LinkedRow) :
  chained prev g → g !! i = Some r →
  Previous_Balance_Difference r =
    match i with
    | O => prev
    | S j =>
        default nan
          ((fun q : LinkedRow => Num.to_float (Balance_Difference q))
             <$> g !! j)
    end ∧
  Difference_Change r =
    (Num.to_float (Balance_Difference r) - Previous_Balance_Difference r)%float.
Proof.
  revert prev i. induction g as [|q g IH]; intros prev i; [done|].
  intros (Hp & Hc & Hg). destruct i as [|i]; simpl.
  - intros [= <-]. by rewrite Hc, Hp.
  - intros Hr. destruct (IH _ _ Hg Hr) as [Hprev Hchange].
    split; [|done]. rewrite Hprev. by destruct i.
Qed.

Lemma dtyped_group_sorted_by_date (df : list CleanRow) (k : string) :
  StronglySorted (fun a b : LinkedRow => date_le a b)
                 (group k (full_pipeline df)).
Proof.
  unfold group.
  apply (StronglySorted_filter_weaken
           (fun a b : LinkedRow => row_le a b)).
  { intros a b Ha Hb. apply dtyped_row_le_same_key. congruence. }
  apply (StronglySorted_map_inv row_le
           (fun r : LinkedRow => diff_base (linked_base r))).
  rewrite dtyped_full_pipeline_keyed.
  apply dtyped_sort_values_strongly_sorted.
Qed.

(** The rows of one identity key are the rounded records of the input with
    that key. *)
Lemma series_rows (df : list CleanRow) (k : string) :
  map (fun r : LinkedRow => keyed_base (diff_base (linked_base r)))
      (series k (full_pipeline df))
  ≡ₚ filter (fun r : CleanRow => identity_key r = k) (map round_row df).
Proof.
  assert (map (fun r : LinkedRow => keyed_base (diff_base (linked_base r)))
              (series k (full_pipeline df))
          = filter (fun r : CleanRow => identity_key r = k)
              (map (fun r : LinkedRow => keyed_base (diff_base (linked_base r)))
                   (full_pipeline df))) as ->.
  { exact (map_filter_comm
             (fun r : LinkedRow => keyed_base (diff_base (linked_base r)))
             (fun r : CleanRow => identity_key r = k) (full_pipeline df)). }
  assert (map (fun r : LinkedRow => keyed_base (diff_base (linked_base r)))
              (full_pipeline df)
          = map keyed_base (preprocess_data df)) as ->.
  { rewrite <- dtyped_full_pipeline_keyed. by rewrite map_map. }
  unfold preprocess_data. rewrite dtyped_sort_values_perm.
  by rewrite map_map.
Qed.
End dtyped_engine.

(** ** Float64 columns

    On float64 balance columns the engine on columns of either dtype is the
    engine on floats. *)

Lemma insert_row_of_float (x : KeyedRow) (l : list KeyedRow) :
  Dtyped.insert_row (of_float_keyed x) (map of_float_keyed l)
    = map of_float_keyed (DataProcessor.insert_row x l).
Proof.
  induction l as [|y l IH]; [done|].
  cbn [map Dtyped.insert_row DataProcessor.insert_row].
  change (Dtyped.row_leb (of_float_keyed x) (of_float_keyed y))
    with (DataProcessor.row_leb x y).
  destruct (DataProcessor.row_leb x y); [done|].
  cbn [map]. by rewrite IH.
Qed.

Lemma sort_values_of_float (l : list KeyedRow) :
  Dtyped.sort_values (map of_float_keyed l)
    = map of_float_keyed (DataProcessor.sort_values l).
Proof.
  induction l as [|x l IH]; [done|].
  change (Dtyped.sort_values (map of_float_keyed (x :: l)))
    with (Dtyped.insert_row (of_float_keyed x)
            (Dtyped.sort_values (map of_float_keyed l))).
  rewrite IH. apply insert_row_of_float.
Qed.

Lemma groupby_shift_of_float (last : gmap string float) (l : list DiffRow) :
  Dtyped.groupby_shift last (map of_float_diff l)
    = DataProcessor.groupby_shift last l.
Proof.
  revert last. induction l as [|r l IH]; intros last; [done|].
  cbn [map Dtyped.groupby_shift DataProcessor.groupby_shift].
  f_equal. apply IH.
Qed.

Lemma full_pipeline_of_float (df : list CleanRow) :
  Dtyped.full_pipeline (map of_float_row df)
    = map of_float_linked (DataProcessor.full_pipeline df).
Proof.
  unfold Dtyped.full_pipeline, DataProcessor.full_pipeline.
  assert (Dtyped.preprocess_data (map of_float_row df)
          = map of_float_keyed (DataProcessor.preprocess_data df)) as ->.
  { unfold Dtyped.preprocess_data, DataProcessor.preprocess_data.
    rewrite <- sort_values_of_float. f_equal.
    rewrite !map_map. reflexivity. }
  generalize (DataProcessor.preprocess_data df). intros l.
  assert (Dtyped.calculate_differences (map of_float_keyed l)
          = map of_float_diff (DataProcessor.calculate_differences l)) as ->.
  { unfold Dtyped.calculate_differences, DataProcessor.calculate_differences.
    rewrite !map_map. reflexivity. }
  generalize (DataProcessor.calculate_differences l). intros d.
  unfold Dtyped.add_previous_differences,
    DataProcessor.add_previous_differences.
  rewrite groupby_shift_of_float.
  generalize (DataProcessor.groupby_shift ∅ d). intros col.
  revert col. induction d as [|r d IH]; intros [|p col]; try done.
  cbn [map zip_with]. f_equal. apply IH.
Qed.

(** The status [calculate_differences] gives a row. *)
Lemma difference_row_status (r : Dtyped.KeyedRow) :
  (Dtyped.Match_Status (Dtyped.difference_row r) = "Match" ↔
     Num.lt_one (Num.abs (Num.sub (Dtyped.GL_Balance r)
                                  (Dtyped.IHUB_Balance r))) = true) ∧
  (Dtyped.Match_Status (Dtyped.difference_row r) = "Break" ↔
     Num.lt_one (Num.abs (Num.sub (Dtyped.GL_Balance r)
                                  (Dtyped.IHUB_Balance r))) = false).
Proof.
  cbn [Dtyped.difference_row Dtyped.Match_Status].
  destruct (Num.lt_one _); split; split; (done || discriminate).
Qed.

(** C3. [calculate_differences] keeps every record of the normalized set and
    gives it the difference of its balances and the absolute value of that
    difference in the dtype of the balance columns; the status is [Match]
    exactly when that absolute value is below 1, and [Break] otherwise. On
    float64 columns the test is made on the float64 difference; on int64
    columns it holds exactly when the balances are equal or 2^63 apart; a
    column of whole numbers against a float64 column is turned into floats. *)
Theorem match_status_iff_within_tolerance (df : list Dtyped.KeyedRow) :
  map Dtyped.diff_base (Dtyped.calculate_differences df) = df ∧
  Forall (fun r : Dtyped.DiffRow =>
    Dtyped.Balance_Difference r
      = Num.sub (Dtyped.GL_Balance r) (Dtyped.IHUB_Balance r) ∧
    Dtyped.Abs_Difference r = Num.abs (Dtyped.Balance_Difference r) ∧
    (Dtyped.Match_Status r = "Match" ↔
       Num.lt_one (Dtyped.Abs_Difference r) = true) ∧
    (Dtyped.Match_Status r = "Break" ↔
       Num.lt_one (Dtyped.Abs_Difference r) = false) ∧
    (∀ g h : float,
       Dtyped.GL_Balance r = Float64 g → Dtyped.IHUB_Balance r = Float64 h →
       Dtyped.Balance_Difference r = Float64 (g - h) ∧
       (Dtyped.Match_Status r = "Match" ↔ (abs (g - h) <? 1)%float = true)) ∧
    (∀ a b : Z,
       Dtyped.GL_Balance r = Int64 a → Dtyped.IHUB_Balance r = Int64 b →
       int64 a → int64 b →
       (Dtyped.Match_Status r = "Match" ↔
          (Z.abs (a - b) < 1 ∨ Z.abs (a - b) = 2 ^ 63)%Z)) ∧
    (∀ (a : Z) (h : float),
       Dtyped.GL_Balance r = Int64 a → Dtyped.IHUB_Balance r = Float64 h →
       (Dtyped.Match_Status r = "Match" ↔
          (abs (Py.float_of_Z a - h) <? 1)%float = true)) ∧
    (∀ (g : float) (b : Z),
       Dtyped.GL_Balance r = Float64 g → Dtyped.IHUB_Balance r = Int64 b →
       (Dtyped.Match_Status r = "Match" ↔
          (abs (g - Py.float_of_Z b) <? 1)%float = true)))
    (Dtyped.calculate_differences df).
Proof.
  split; [apply dtyped_calculate_differences_rows|].
  unfold Dtyped.calculate_differences. apply Forall_map, Forall_forall.
  intros r _.
  destruct (difference_row_status r) as [Hmatch Hbreak].
  split; [reflexivity|]. split; [reflexivity|].
  split; [exact Hmatch|]. split; [exact Hbreak|].
  cbn [Dtyped.difference_row Dtyped.diff_base Dtyped.Balance_Difference].
  split; [|split; [|split]].
  - intros g h Hg Hh. rewrite Hmatch, Hg, Hh. done.
  - intros a b Ha Hb Hra Hrb. rewrite Hmatch, Ha, Hb.
    by apply int64_within_tolerance.
  - intros a h Ha Hh. by rewrite Hmatch, Ha, Hh.
  - intros g b Hg Hb. by rewrite Hmatch, Hg, Hb.
Qed.

(** Two balances exactly 1.00 apart, 2.30 and 1.30, are not within the
    tolerance of the specification, and the record is a [Match]: the float64
    difference of the two floats is 0.99999999999999978. The balances 3.00
    and 2.00 give a [Break]. *)
Lemma one_unit_apart_is_a_match :
  Decimal.within_tolerance 230 130 = false ∧
  Dtyped.GL_Balance one_unit_apart = Float64 2.3 ∧
  Dtyped.IHUB_Balance one_unit_apart = Float64 1.3 ∧
  (∃ r : Dtyped.LinkedRow,
     Dtyped.full_pipeline [one_unit_apart] = [r] ∧
     Dtyped.GL_Balance r = Float64 2.3 ∧
     Dtyped.IHUB_Balance r = Float64 1.3 ∧
     Dtyped.Balance_Difference r = Float64 0.99999999999999978 ∧
     Dtyped.Match_Status r = "Match") ∧
  Decimal.within_tolerance 300 200 = false ∧
  (∃ r : Dtyped.LinkedRow,
     Dtyped.full_pipeline [one_unit_apart_whole] = [r] ∧
     Dtyped.Balance_Difference r = Float64 1 ∧
     Dtyped.Match_Status r = "Break").
Proof.
  split; [reflexivity|]. split; [reflexivity|]. split; [reflexivity|].
  split; [|split; [reflexivity|]]; eexists;
    (split; [vm_compute; reflexivity|]); repeat split.
Qed.

(** On int64 columns two balances 2^63 apart are a [Match]: the difference
    wraps around to -2^63, and so does its absolute value. *)
Example far_apart_is_a_match :
  ∃ r : Dtyped.LinkedRow,
    Dtyped.full_pipeline [far_apart] = [r] ∧
    Dtyped.Balance_Difference r = Int64 (- 2 ^ 63) ∧
    Dtyped.Abs_Difference r = Int64 (- 2 ^ 63) ∧
    Dtyped.Match_Status r = "Match".
Proof. eexists. split; [vm_compute; reflexivity|]. repeat split. Qed.

(** C4. In the frame the Difference Engine returns, the key of a row is the
    concatenation of its company, account, accounting unit, currency and
    primary account, joined by underscores. The rows with one identity key
    are the records of the input with that key, in ascending date order; the
    previous difference of the row at position [i] is the difference of the
    row at position [i - 1] as a float64 (the difference itself on float64
    columns, the nearest float on int64 columns) and the null at position 0;
    the difference change is the float64 difference of the two, and the null
    at position 0. *)
Theorem previous_difference_follows_series
    (df : list Dtyped.CleanRow) (k : string) :
  (∀ r : Dtyped.LinkedRow, r ∈ Dtyped.full_pipeline df →
     Dtyped.CompositeKey r =
       Dtyped.Company r +:+ "_" +:+ Dtyped.Account r +:+ "_" +:+
       Dtyped.AU r +:+ "_" +:+ Dtyped.Currency r +:+ "_" +:+
       Dtyped.Primary_Account r) ∧
  map (fun r : Dtyped.LinkedRow =>
         Dtyped.keyed_base (Dtyped.diff_base (Dtyped.linked_base r)))
      (series k (Dtyped.full_pipeline df))
    ≡ₚ filter (fun r : Dtyped.CleanRow => identity_key r = k)
              (map Dtyped.round_row df) ∧
  StronglySorted (fun a b : Dtyped.LinkedRow => Dtyped.date_le a b)
                 (series k (Dtyped.full_pipeline df)) ∧
  ∀ (i : nat) (r : Dtyped.LinkedRow),
    series k (Dtyped.full_pipeline df) !! i = Some r →
    Dtyped.Previous_Balance_Difference r =
      match i with
      | O => nan
      | S j =>
          default nan
            ((fun q : Dtyped.LinkedRow =>
                Num.to_float (Dtyped.Balance_Difference q)) <$>
             series k (Dtyped.full_pipeline df) !! j)
      end ∧
    (∀ (j : nat) (q : Dtyped.LinkedRow),
       i = S j → series k (Dtyped.full_pipeline df) !! j = Some q →
       match Dtyped.Balance_Difference q with
       | Float64 x => Dtyped.Previous_Balance_Difference r = x
       | Int64 z => Dtyped.Previous_Balance_Difference r = Py.float_of_Z z
       end) ∧
    Dtyped.Difference_Change r =
      (Num.to_float (Dtyped.Balance_Difference r)
       - Dtyped.Previous_Balance_Difference r)%float ∧
    (i = 0%nat → Dtyped.Difference_Change r = nan).
Proof.
  split; [|split; [apply series_rows | split]].
  - apply dtyped_full_pipeline_keys.
  - rewrite series_group. apply dtyped_group_sorted_by_date.
  - rewrite series_group. intros i r Hr.
    pose proof (dtyped_groupby_shift_chained ∅
                  (Dtyped.calculate_differences (Dtyped.preprocess_data df)) k)
      as Hchain.
    rewrite lookup_empty in Hchain.
    destruct (dtyped_chained_lookup _ _ i r Hchain Hr) as [Hprev Hchange].
    split; [exact Hprev|]. split; [|split; [exact Hchange|]].
    + intros j q -> Hq. rewrite Hprev.
      change (Dtyped.group k (Dtyped.full_pipeline df) !! j = Some q) in Hq.
      unfold Dtyped.full_pipeline, Dtyped.add_previous_differences in Hq.
      rewrite Hq. simpl. by destruct (Dtyped.Balance_Difference q).
    + intros ->. rewrite Hchange, Hprev. apply sub_nan_r.
Qed.

Lemma previous_difference_follows_series_witness :
  ∃ r0 r1 : Dtyped.LinkedRow,
    series "Co1_Acc2_AU1_USD_PA1" (Dtyped.full_pipeline two_account_batch)
      = [r0; r1] ∧
    Dtyped.AsofDate r0 = 20240131%Z ∧ Dtyped.AsofDate r1 = 20240229%Z ∧
    Dtyped.Balance_Difference r0 = Float64 3.25 ∧
    Dtyped.Previous_Balance_Difference r0 = nan ∧
    Dtyped.Difference_Change r0 = nan ∧
    Dtyped.Previous_Balance_Difference r1 = 3.25%float ∧
    Dtyped.Difference_Change r1 =
      (Num.to_float (Dtyped.Balance_Difference r1) - 3.25)%float.
Proof.
  eexists _, _. split; [vm_compute; reflexivity|].
  split; [reflexivity|]. split; [reflexivity|]. split; [reflexivity|].
  pose proof (proj2 (proj2 (proj2
    (previous_difference_follows_series two_account_batch
       "Co1_Acc2_AU1_USD_PA1")))) as Hseries.
  split; [|split; [|split]].
  - refine (proj1 (Hseries 0%nat _ _)). vm_compute; reflexivity.
  - refine (proj2 (proj2 (proj2 (Hseries 0%nat _ _))) eq_refl).
    vm_compute; reflexivity.
  - etrans; [refine (proj1 (Hseries 1%nat _ _)) |]; vm_compute; reflexivity.
  - refine (proj1 (proj2 (proj2 (Hseries 1%nat _ _)))).
    vm_compute; reflexivity.
Defined.

(** On int64 columns a difference of 2^53 + 1 comes back from the shift as
    the float 2^53: the previous difference of the next record is not the
    difference of the record before it. *)
Lemma whole_difference_is_rounded_by_the_shift :
  ∃ r0 r1 : Dtyped.LinkedRow,
    series "Co1_Acc1_AU1_USD_PA1" (Dtyped.full_pipeline whole_batch)
      = [r0; r1] ∧
    Dtyped.Balance_Difference r0 = Int64 9007199254740993 ∧
    Num.exact (Dtyped.Balance_Difference r0) = Some 9007199254740993%Z ∧
    Dtyped.Previous_Balance_Difference r1 = 9007199254740992%float ∧
    Num.exact (Float64 (Dtyped.Previous_Balance_Difference r1))
      = Some 9007199254740992%Z ∧
    Num.exact (Float64 (Dtyped.Previous_Balance_Difference r1))
      ≠ Num.exact (Dtyped.Balance_Difference r0).
Proof.
  eexists _, _. split; [vm_compute; reflexivity|].
  repeat split; try (vm_compute; reflexivity).
  vm_compute. discriminate.
Qed.

(** * Further properties of the code *)

(** ** The record set through the Difference Engine *)

Lemma row_le_key_then_date (a b : KeyedRow) :
  DataProcessor.row_le a b ↔ key_then_date a b.
Proof.
  unfold DataProcessor.row_le, DataProcessor.row_leb, key_then_date, String.ltb.
  destruct (String.compare (CompositeKey a) (CompositeKey b)) eqn:E.
  - apply String.compare_eq_iff in E. rewrite Z.leb_le. split.
    + intros H. right. done.
    + intros [H|[_ H]]; [discriminate | done].
  - split; [by left | done].
  - split; [done|]. intros [H|[Hk _]]; [discriminate|].
    rewrite Hk, string_compare_refl in E. discriminate.
Qed.

Lemma StronglySorted_iff {A} (R R' : relation A) (l : list A) :
  (∀ a b, R a b → R' a b) → StronglySorted R l → StronglySorted R' l.
Proof.
  intros HR. induction 1 as [|a l Hl IH Ha]; constructor; [done|].
  eapply Forall_impl; [exact Ha | auto].
Qed.

(** X1. [preprocess_data] returns the rows of the frame, with rounded balances and
    their key, reordered by key and then by date: none is lost or repeated. *)
Theorem preprocess_data_sorts_the_rounded_rows (df : list CleanRow) :
  DataProcessor.preprocess_data df ≡ₚ map DataProcessor.preprocess_row df ∧
  StronglySorted key_then_date (DataProcessor.preprocess_data df).
Proof.
  split; [apply sort_values_perm|].
  eapply StronglySorted_iff; [|apply sort_values_strongly_sorted].
  intros a b. apply row_le_key_then_date.
Qed.

Lemma full_pipeline_rows_count (df : list CleanRow) :
  length (DataProcessor.full_pipeline df) = length df.
Proof.
  rewrite <- (length_map (fun r : LinkedRow => diff_base (linked_base r))).
  rewrite full_pipeline_keyed. unfold DataProcessor.preprocess_data.
  by rewrite sort_values_perm, length_map.
Qed.

(** X2. The Difference Engine keeps every record exactly once: the balance and
    identity columns of its output are those of the input with the balances
    rounded, up to order, and the index labels are the labels of the input. *)
Theorem full_pipeline_keeps_every_record (df : list CleanRow) :
  map DataProcessor.raw_columns (DataProcessor.full_pipeline df)
    ≡ₚ map (fun r => keyed_base (DataProcessor.preprocess_row r)) df ∧
  map (fun r : LinkedRow => index r) (DataProcessor.full_pipeline df)
    ≡ₚ map index df ∧
  length (DataProcessor.full_pipeline df) = length df ∧
  (NoDup (map (fun r : LinkedRow => index r) (DataProcessor.full_pipeline df))
   ↔ NoDup (map index df)).
Proof.
  assert (map DataProcessor.raw_columns (DataProcessor.full_pipeline df)
          ≡ₚ map (fun r => keyed_base (DataProcessor.preprocess_row r)) df)
    as Hraw.
  { transitivity (map keyed_base (DataProcessor.preprocess_data df)).
    - rewrite <- full_pipeline_keyed, map_map. done.
    - unfold DataProcessor.preprocess_data.
      rewrite sort_values_perm, map_map. done. }
  assert (map (fun r : LinkedRow => index r) (DataProcessor.full_pipeline df)
          ≡ₚ map index df) as Hidx.
  { transitivity (map index
      (map DataProcessor.raw_columns (DataProcessor.full_pipeline df))).
    - by rewrite map_map.
    - rewrite Hraw, map_map. done. }
  split; [exact Hraw|]. split; [exact Hidx|]. split.
  - apply Permutation_length in Hidx. by rewrite !length_map in Hidx.
  - by rewrite Hidx.
Qed.

(** ** Labels on the frames of the workflow *)

Lemma scored_row_label (r : ScoredRow) :
  ∃ l, HybridAnomalyClassifier.classify_break (ReconciliationWorkflow.to_series r)
         = Ok l ∧
       Rules.classify
         {| Rules.match_status := Match_Status r;
            Rules.d := Balance_Difference r;
            Rules.p := Previous_Balance_Difference r |} = Some l.
Proof.
  destruct (to_series_classifier_columns r) as (Hms & Hd & Hp).
  exact (classify_break_rules _ _ _ _ Hms Hd Hp).
Qed.

(** The label of a record of the pipeline, by cases. *)
Lemma pipeline_label_cases (df : list CleanRow) (r : ScoredRow) :
  flagged_base (scored_base r) ∈ DataProcessor.full_pipeline df →
  ∃ l, HybridAnomalyClassifier.classify_break (ReconciliationWorkflow.to_series r)
         = Ok l ∧
       l ≠ "Small Difference" ∧
       (l = "Within Tolerance" ↔ Match_Status r = "Match") ∧
       (l = "New Difference" ↔
          Match_Status r = "Break" ∧
          F.isna (Previous_Balance_Difference r) = true).
Proof.
  intros Hr. destruct (scored_row_label r) as (l & Hl & Hrule).
  exists l. split; [exact Hl|]. clear Hl.
  pose proof (full_pipeline_match_status df _ Hr) as Hms.
  change (Match_Status (flagged_base (scored_base r)))
    with (Match_Status r) in Hms.
  change (Balance_Difference (flagged_base (scored_base r)))
    with (Balance_Difference r) in Hms.
  unfold Rules.classify in Hrule.
  cbn [Rules.first_match Rules.table Rules.match_status Rules.d Rules.p]
    in Hrule.
  unfold Rules.small in Hrule. rewrite Hms in *. clear Hms.
  destruct (abs (Balance_Difference r) <? 1.0)%float eqn:Hsmall.
  - rewrite bool_decide_eq_true_2 in Hrule by done.
    injection Hrule as <-. repeat split; try done. intros [? _]. done.
  - rewrite bool_decide_eq_false_2 in Hrule by done.
    destruct (F.isna (Previous_Balance_Difference r)) eqn:Hna.
    + injection Hrule as <-. repeat split; done.
    + revert Hrule. destruct_ifs; intros [= <-]; repeat split; try done;
        intros [_ ?]; done.
Qed.

(** X3. A record the Difference Engine produced is never labelled
    [Small Difference]: it is [Within Tolerance] exactly when it is a [Match],
    and [New Difference] exactly when it is a [Break] whose previous
    difference is null. *)
Theorem pipeline_record_labels (df : list CleanRow) (r : ScoredRow) :
  flagged_base (scored_base r) ∈ DataProcessor.full_pipeline df →
  ∃ l, HybridAnomalyClassifier.classify_break (ReconciliationWorkflow.to_series r)
         = Ok l ∧
       l ≠ "Small Difference" ∧
       (l = "Within Tolerance" ↔ Match_Status r = "Match") ∧
       (l = "New Difference" ↔
          Match_Status r = "Break" ∧
          F.isna (Previous_Balance_Difference r) = true).
Proof. apply pipeline_label_cases. Qed.

Lemma pipeline_record_labels_witness :
  ∃ l, HybridAnomalyClassifier.classify_break
         (ReconciliationWorkflow.to_series half_unit_record) = Ok l ∧
       l ≠ "Small Difference" ∧
       (l = "Within Tolerance" ↔ Match_Status half_unit_record = "Match") ∧
       (l = "New Difference" ↔
          Match_Status half_unit_record = "Break" ∧
          F.isna (Previous_Balance_Difference half_unit_record) = true).
Proof.
  apply (pipeline_record_labels half_unit_batch half_unit_record).
  vm_compute. left.
Defined.

Lemma classify_scored_rows (out : list ScoredRow) :
  ∃ labels,
    mapM_result HybridAnomalyClassifier.classify_break
      (map ReconciliationWorkflow.to_series out) = Ok labels ∧
    length labels = length out.
Proof.
  induction out as [|r out (labels & Hl & Hlen)].
  { exists []. done. }
  destruct (scored_row_label r) as (l & Hrow & _).
  exists (l :: labels). split; [|simpl; by rewrite Hlen].
  change (map ReconciliationWorkflow.to_series (r :: out))
    with (ReconciliationWorkflow.to_series r
          :: map ReconciliationWorkflow.to_series out).
  by rewrite mapM_result_cons, Hrow, Hl.
Qed.

(** X5. [classify_all] never raises on a frame the Anomaly Scorer returned: the
    status column is there and every row has the cells [classify_break] reads,
    with the types it needs. It returns as many rows as it was given. *)
Theorem classify_all_accepts_scored_frames (out : list ScoredRow) :
  ∃ df1, HybridAnomalyClassifier.classify_all (ReconciliationWorkflow.to_frame out)
           = Ok df1 ∧
         length (rows df1) = length out ∧
         "Break Classification" ∈ columns df1.
Proof.
  destruct (classify_scored_rows out) as (labels & Hl & Hlen).
  unfold HybridAnomalyClassifier.classify_all.
  rewrite bool_decide_eq_true_2.
  2: { simpl. set_solver. }
  simpl. rewrite Hl. eexists. split; [reflexivity|]. simpl. split.
  - unfold HybridAnomalyClassifier.set_cells.
    rewrite length_zip_with, !length_map. lia.
  - vm_compute. set_solver.
Qed.

(** ** What [classify_break] and [classify_all] can return *)

(** X6. On any row at all, [classify_break] either returns one of the eight
    labels of the taxonomy or raises: a [KeyError] for the status or for the
    difference when the row does not have them, a [TypeError] when a cell it
    computes with is not a number, an [OverflowError] when the previous
    difference is a whole number beyond the range of floats. A row whose
    status is [Match] gets its label without any other cell being read. *)
Theorem classify_break_outcomes (row : Series) :
  match HybridAnomalyClassifier.classify_break row with
  | Ok l => l ∈ HybridAnomalyClassifier.taxonomy
  | Raise e =>
      (e = KeyError "Match Status" ∧ row !! "Match Status" = None) ∨
      (e = KeyError "Balance Difference" ∧ row !! "Balance Difference" = None) ∨
      e = TypeError ∨
      (e = OverflowError ∧
       ∃ n, row !! "Previous Balance Difference" = Some (VInt n) ∧
            is_infinity (Py.float_of_Z n) = true)
  end ∧
  (row !! "Match Status" = Some (VStr "Match") →
   HybridAnomalyClassifier.classify_break row = Ok "Within Tolerance").
Proof.
  split; [apply classify_break_cases|].
  intros Hms. unfold HybridAnomalyClassifier.classify_break, Py.getitem.
  by rewrite Hms.
Qed.

Lemma classify_break_outcomes_witness :
  HybridAnomalyClassifier.classify_break huge_previous_row
    = Raise OverflowError ∧
  HybridAnomalyClassifier.classify_break text_difference_row
    = Raise TypeError ∧
  HybridAnomalyClassifier.classify_break (<["Match Status" := VStr "Match"]> ∅)
    = Ok "Within Tolerance".
Proof.
  split; [vm_compute; reflexivity|]. split; [reflexivity|].
  apply (proj2 (classify_break_outcomes (<["Match Status" := VStr "Match"]> ∅))).
  reflexivity.
Defined.

Lemma classify_rows_labels (df : list Series) (labels : list string) :
  mapM_result HybridAnomalyClassifier.classify_break df = Ok labels →
  Forall2 (fun row l => HybridAnomalyClassifier.classify_break row = Ok l)
          df labels.
Proof.
  revert labels. induction df as [|row df IH]; intros labels H.
  { simpl in H. injection H as <-. constructor. }
  rewrite mapM_result_cons in H.
  apply bind_Ok in H as (l & Hl & H). apply bind_Ok in H as (ls & Hls & H).
  injection H as <-. constructor; auto.
Qed.

(** X7. When [classify_all] returns, the frame it returns has the rows it was
    given, in their order, each with the label of [classify_break] in the
    [Break Classification] cell and all its other cells as they were; the
    columns are kept and [Break Classification] is among them. *)
Theorem classify_all_adds_one_column (df df1 : Frame) :
  HybridAnomalyClassifier.classify_all df = Ok df1 →
  "Match Status" ∈ columns df ∧
  (∀ c, c ∈ columns df → c ∈ columns df1) ∧
  "Break Classification" ∈ columns df1 ∧
  Forall2 (fun row row1 : Series =>
    ∃ l, HybridAnomalyClassifier.classify_break row = Ok l ∧
         l ∈ HybridAnomalyClassifier.taxonomy ∧
         row1 = <["Break Classification" := VStr l]> row)
    (rows df) (rows df1).
Proof.
  unfold HybridAnomalyClassifier.classify_all.
  case_bool_decide as Hcol; [|discriminate].
  intros H. apply bind_Ok in H as (labels & Hlabels & H). injection H as <-.
  simpl. split; [exact Hcol|]. split; [|split].
  - intros c. apply elem_of_add_column.
  - unfold HybridAnomalyClassifier.add_column. case_bool_decide; set_solver.
  - apply classify_rows_labels in Hlabels.
    induction Hlabels as [|row l rows labels Hl _ IH]; [constructor|].
    change (map VStr (l :: labels)) with (VStr l :: map VStr labels).
    rewrite set_cells_cons. constructor; [|exact IH].
    exists l. repeat split; [exact Hl|].
    by apply (classify_break_label_in_taxonomy row).
Qed.

Lemma classify_all_adds_one_column_witness :
  ∃ df1,
    HybridAnomalyClassifier.classify_all unlinked_frame = Ok df1 ∧
    "Match Status" ∈ columns unlinked_frame ∧
    (∀ c, c ∈ columns unlinked_frame → c ∈ columns df1) ∧
    "Break Classification" ∈ columns df1 ∧
    Forall2 (fun row row1 : Series =>
      ∃ l, HybridAnomalyClassifier.classify_break row = Ok l ∧
           l ∈ HybridAnomalyClassifier.taxonomy ∧
           row1 = <["Break Classification" := VStr l]> row)
      (rows unlinked_frame) (rows df1).
Proof.
  eexists. split; [vm_compute; reflexivity|].
  apply (classify_all_adds_one_column unlinked_frame).
  vm_compute. reflexivity.
Defined.

(** ** What the detector fits and what it flags *)

Section detector_runs.
Context (sk : sklearn).
Import AnomalyDetector.

(** The run of [detect_anomalies] on a frame with a [Break] row, step by
    step. *)
Lemma detect_anomalies_run (self self' : t sk) (df : list LinkedRow)
    (fl : list FlaggedRow) :
  breaks_of df ≠ [] →
  detect_anomalies sk self df = Ok (self', fl) →
  ∃ sc scaled fo labels,
    scaler_fit_transform sk (map feature_row (breaks_of df)) = Ok (sc, scaled) ∧
    forest_fit_predict sk scaled = Ok (fo, labels) ∧
    length labels = length (breaks_of df) ∧
    self' = {| scaler := Some sc; model := Some fo |} ∧
    fl = map flag
           (merge_left df
              (zip_with (fun (r : LinkedRow) l => (index r, map_label l))
                        (breaks_of df) labels)).
Proof.
  intros Hb. unfold detect_anomalies. fold (breaks_of df).
  rewrite decide_False by done. intros H.
  apply bind_Ok in H as ([sc scaled] & Hfit & H).
  apply bind_Ok in H as ([fo labels] & Hpred & H).
  apply bind_Ok in H as (col & Hcol & H).
  apply set_column_ok in Hcol as [Hlen ->].
  injection H as <- <-.
  exists sc, scaled, fo, labels. done.
Qed.

(** The cell the merge puts next to a row: the null when no right row has its
    label, the cell of a right row with its label otherwise. *)
Lemma merge_left_cell (df : list LinkedRow) (right : list (Z * option Z))
    (q : LinkedRow * option Z) :
  q ∈ merge_left df right →
  (filter (fun p => p.1 = index q.1) right = [] ∧ q.2 = None) ∨
  (∃ p, p ∈ right ∧ p.1 = index q.1 ∧ q.2 = p.2).
Proof.
  induction df as [|r df IH]; [by intros ?%elem_of_nil|].
  rewrite merge_left_cons. intros [Hq|Hq]%elem_of_app; [|auto].
  destruct (filter (fun p => p.1 = index r) right) as [|p ps] eqn:E.
  - apply list_elem_of_singleton in Hq as ->. left. done.
  - rewrite <- E in Hq.
    apply list_elem_of_In, in_map_iff in Hq as (p' & <- & Hp').
    apply list_elem_of_In, list_elem_of_filter in Hp' as [Hk Hin].
    right. exists p'. done.
Qed.

Lemma elem_of_zip_with_lookup {A B C} (f : A → B → C) (l : list A)
    (k : list B) (i : nat) (a : A) (b : B) :
  l !! i = Some a → k !! i = Some b → f a b ∈ zip_with f l k.
Proof.
  revert k i. induction l as [|x l IH]; intros [|y k] [|i]; simpl;
    try discriminate.
  - intros [= <-] [= <-]. left.
  - intros Ha Hb. right. eauto.
Qed.
End detector_runs.

(** X8. [detect_anomalies] leaves the detector as it was on a frame without a
    [Break] row, and fits both the scaler and the forest, on the features of
    the [Break] rows only, on a frame that has one. *)
Theorem detect_anomalies_fits_on_breaks (sk : sklearn)
    (self self' : AnomalyDetector.t sk) (df : list LinkedRow)
    (fl : list FlaggedRow) :
  AnomalyDetector.detect_anomalies sk self df = Ok (self', fl) →
  (breaks_of df = [] → self' = self) ∧
  (breaks_of df ≠ [] →
   ∃ sc scaled fo labels,
     scaler_fit_transform sk
       (map AnomalyDetector.feature_row (breaks_of df)) = Ok (sc, scaled) ∧
     forest_fit_predict sk scaled = Ok (fo, labels) ∧
     AnomalyDetector.scaler sk self' = Some sc ∧
     AnomalyDetector.model sk self' = Some fo).
Proof.
  intros H. split.
  - intros Hb. unfold AnomalyDetector.detect_anomalies in H.
    fold (breaks_of df) in H. rewrite decide_True in H by done.
    by injection H as <- _.
  - intros Hb.
    destruct (detect_anomalies_run sk self self' df fl Hb H)
      as (sc & scaled & fo & labels & Hfit & Hpred & _ & -> & _).
    exists sc, scaled, fo, labels. done.
Qed.

Lemma detect_anomalies_fits_on_breaks_witness :
  ∃ self' fl,
    AnomalyDetector.detect_anomalies sklearn_stub
      (AnomalyDetector.init sklearn_stub)
      (DataProcessor.full_pipeline sample_batch) = Ok (self', fl) ∧
    AnomalyDetector.scaler sklearn_stub self' = Some () ∧
    AnomalyDetector.model sklearn_stub self' = Some ().
Proof.
  eexists. eexists. split; [vm_compute; reflexivity|].
  destruct (proj2 (detect_anomalies_fits_on_breaks sklearn_stub
                     (AnomalyDetector.init sklearn_stub) _
                     (DataProcessor.full_pipeline sample_batch) _
                     ltac:(vm_compute; reflexivity))
                  ltac:(vm_compute; discriminate))
    as (sc & scaled & fo & labels & _ & _ & Hsc & Hfo).
  destruct sc, fo. done.
Defined.

(** X9. In a frame with distinct index labels, a [Break] row is flagged as an
    anomaly exactly when the forest labelled its sample -1: the flag of the
    [i]-th [Break] row is 1 for the label -1 and 0 for any other label. *)
Theorem flags_follow_the_forest (sk : sklearn)
    (self self' : AnomalyDetector.t sk) (df : list LinkedRow)
    (fl : list FlaggedRow) :
  NoDup (map (fun r : LinkedRow => index r) df) →
  breaks_of df ≠ [] →
  AnomalyDetector.detect_anomalies sk self df = Ok (self', fl) →
  ∃ sc scaled fo labels,
    scaler_fit_transform sk
      (map AnomalyDetector.feature_row (breaks_of df)) = Ok (sc, scaled) ∧
    forest_fit_predict sk scaled = Ok (fo, labels) ∧
    length labels = length (breaks_of df) ∧
    ∀ (i : nat) (b : LinkedRow) (l : Z) (q : FlaggedRow),
      breaks_of df !! i = Some b → labels !! i = Some l →
      q ∈ fl → flagged_base q = b →
      Is_Anomaly q = if decide (l = (-1)%Z) then 1%Z else 0%Z.
Proof.
  intros Hnd Hb H.
  destruct (detect_anomalies_run sk self self' df fl Hb H)
    as (sc & scaled & fo & labels & Hfit & Hpred & Hlen & _ & ->).
  exists sc, scaled, fo, labels. repeat split; try done.
  intros i b l q Hbi Hli Hq <-.
  set (col := zip_with (fun (r : LinkedRow) l =>
                          (index r, AnomalyDetector.map_label l))
                       (breaks_of df) labels) in *.
  assert (NoDup (map fst col)) as Hndc.
  { assert (map fst col = map (fun r : LinkedRow => index r) (breaks_of df))
      as ->.
    { subst col. clear -Hlen. revert labels Hlen.
      induction (breaks_of df) as [|b bs IH]; intros [|l ls] Hlen;
        simpl in *; try discriminate; [reflexivity|]. f_equal. apply IH. lia. }
    by apply NoDup_map_filter. }
  assert ((index (flagged_base q), AnomalyDetector.map_label l) ∈ col) as Hin.
  { subst col.
    apply (elem_of_zip_with_lookup
             (fun (r : LinkedRow) l => (index r, AnomalyDetector.map_label l))
             _ _ i (flagged_base q) l Hbi Hli). }
  apply list_elem_of_In, in_map_iff in Hq as (m & <- & Hm).
  apply list_elem_of_In in Hm.
  destruct (merge_left_cell df col m Hm) as [[Hempty _]|(p & Hp & Hidx & Hcell)].
  - exfalso. simpl in Hin.
    assert ((index m.1, AnomalyDetector.map_label l)
            ∈ filter (fun p : Z * option Z => p.1 = index m.1) col) as Hf
      by (by apply list_elem_of_filter).
    rewrite Hempty in Hf. by apply elem_of_nil in Hf.
  - simpl in *.
    assert (p = (index m.1, AnomalyDetector.map_label l)) as ->.
    { apply (NoDup_map_inj fst col); done. }
    unfold AnomalyDetector.flag. simpl. rewrite Hcell. simpl.
    unfold AnomalyDetector.map_label.
    repeat case_decide; simpl; first [done | lia].
Qed.

Lemma flags_follow_the_forest_witness :
  ∃ self' fl,
    AnomalyDetector.detect_anomalies sklearn_stub
      (AnomalyDetector.init sklearn_stub)
      (DataProcessor.full_pipeline sample_batch) = Ok (self', fl) ∧
    map Is_Anomaly fl = [0; 1]%Z ∧
    ∃ sc scaled fo labels,
      scaler_fit_transform sklearn_stub
        (map AnomalyDetector.feature_row
             (breaks_of (DataProcessor.full_pipeline sample_batch)))
        = Ok (sc, scaled) ∧
      forest_fit_predict sklearn_stub scaled = Ok (fo, labels) ∧
      length labels
        = length (breaks_of (DataProcessor.full_pipeline sample_batch)) ∧
      ∀ (i : nat) (b : LinkedRow) (l : Z) (q : FlaggedRow),
        breaks_of (DataProcessor.full_pipeline sample_batch) !! i = Some b →
        labels !! i = Some l →
        q ∈ fl → flagged_base q = b →
        Is_Anomaly q = if decide (l = (-1)%Z) then 1%Z else 0%Z.
Proof.
  eexists. eexists. split; [vm_compute; reflexivity|].
  split; [reflexivity|].
  eapply (flags_follow_the_forest sklearn_stub
            (AnomalyDetector.init sklearn_stub) _
            (DataProcessor.full_pipeline sample_batch)).
  - apply (bool_decide_unpack _). vm_compute. exact I.
  - vm_compute. discriminate.
  - vm_compute. reflexivity.
Defined.

(** X10. [calculate_anomaly_scores] on a frame with rows needs a fitted detector
    and scores every record, [Match] rows included: the score column is the
    forest's [score_samples] of the scaled features of all rows, negated, and
    the rows are returned in their order. *)
Theorem anomaly_scores_cover_every_record (sk : sklearn)
    (self : AnomalyDetector.t sk) (df : list FlaggedRow)
    (out : list ScoredRow) :
  df ≠ [] →
  AnomalyDetector.calculate_anomaly_scores sk self df = Ok out →
  ∃ sc fo scaled scores,
    AnomalyDetector.scaler sk self = Some sc ∧
    AnomalyDetector.model sk self = Some fo ∧
    scaler_transform sk sc
      (map (fun r : FlaggedRow => AnomalyDetector.feature_row r) df)
      = Ok scaled ∧
    forest_score_samples sk fo scaled = Ok scores ∧
    map scored_base out = df ∧
    map Anomaly_Score out = map PrimFloat.opp scores.
Proof.
  intros Hne H. unfold AnomalyDetector.calculate_anomaly_scores in H.
  rewrite decide_False in H.
  2: { rewrite length_map. by destruct df. }
  apply bind_Ok in H as (sc & Hsc & H).
  apply bind_Ok in H as (scaled & Hscaled & H).
  apply bind_Ok in H as (fo & Hfo & H).
  apply bind_Ok in H as (scores & Hscores & H).
  apply set_column_ok in H as [Hlen ->].
  exists sc, fo, scaled, scores.
  destruct (AnomalyDetector.scaler sk self) as [sc'|]; [|discriminate].
  destruct (AnomalyDetector.model sk self) as [fo'|]; [|discriminate].
  injection Hsc as ->. injection Hfo as ->.
  repeat split; try done.
  - by apply zip_with_fst_eq.
  - clear -Hlen. revert scores Hlen.
    induction df as [|r df IH]; intros [|s scores] Hlen; simpl in *;
      try discriminate; [reflexivity|]. f_equal. apply IH. lia.
Qed.

Lemma anomaly_scores_cover_every_record_witness :
  ∃ out,
    AnomalyDetector.score sklearn_stub (DataProcessor.full_pipeline sample_batch)
      = Ok out ∧
    map Anomaly_Score out = [0.5; 0.5]%float.
Proof.
  eexists. split; [vm_compute; reflexivity|].
  destruct (anomaly_scores_cover_every_record sklearn_stub
              (AnomalyDetector.Build_t sklearn_stub (Some ()) (Some ()))
              (map (fun p => {| flagged_base := p.1; Is_Anomaly := p.2 |})
                   (zip (DataProcessor.full_pipeline sample_batch) [0; 1]%Z))
              _ ltac:(vm_compute; discriminate) ltac:(vm_compute; reflexivity))
    as (sc & fo & scaled & scores & _ & _ & Hscaled & Hs & _ & Hout).
  vm_compute in Hscaled. injection Hscaled as <-.
  vm_compute in Hs. injection Hs as <-.
  exact Hout.
Defined.

(** ** When the workflow can succeed *)

Lemma score_needs_a_break (sk : sklearn) (df : list LinkedRow)
    (out : list ScoredRow) :
  AnomalyDetector.score sk df = Ok out →
  df = [] ∨ ∃ r : LinkedRow, r ∈ df ∧ Match_Status r = "Break".
Proof.
  intros H. destruct df as [|r0 df]; [by left|]. right.
  destruct (decide (Exists (fun r : LinkedRow => Match_Status r = "Break")
                           (r0 :: df))) as [Hex|Hno].
  { apply Exists_exists in Hex as (r & Hr & Hb). eauto. }
  exfalso. apply not_Exists_Forall in Hno; [|intros r; apply _].
  unfold AnomalyDetector.score in H.
  rewrite detect_anomalies_no_breaks in H by done.
  discriminate.
Qed.

(** X12. [execute] returns [True] only for a token that is not empty and, unless the
    batch has no record at all, only when the batch has a [Break] record. *)
Theorem execute_needs_token_and_break (sk : sklearn) (co : collaborators)
    (hf_token : option string) (df : list CleanRow) :
  ReconciliationWorkflow.execute sk co hf_token df = true →
  (∃ tok, hf_token = Some tok ∧ tok ≠ "") ∧
  (df = [] ∨
   ∃ r : LinkedRow, r ∈ DataProcessor.full_pipeline df ∧
                    Match_Status r = "Break").
Proof.
  unfold ReconciliationWorkflow.execute, ReconciliationWorkflow.run.
  destruct (AnomalyDetector.score sk (DataProcessor.full_pipeline df))
    as [scored|e] eqn:Hscore; [|discriminate].
  cbn [mbind result_bind bind].
  destruct (HybridAnomalyClassifier.classify_all
              (ReconciliationWorkflow.to_frame scored)) as [classified|e];
    [|discriminate].
  cbn [mbind result_bind bind].
  intros H. split.
  - destruct hf_token as [tok|]; [|discriminate].
    exists tok. split; [done|]. intros ->. discriminate.
  - destruct (score_needs_a_break sk _ _ Hscore) as [Hempty|Hbreak]; [|by right].
    left. apply (f_equal length) in Hempty.
    rewrite full_pipeline_rows_count in Hempty. by destruct df.
Qed.

Lemma execute_needs_token_and_break_witness :
  (∃ tok, Some "hf_token" = Some tok ∧ tok ≠ "") ∧
  (sample_batch = [] ∨
   ∃ r : LinkedRow, r ∈ DataProcessor.full_pipeline sample_batch ∧
                    Match_Status r = "Break").
Proof.
  apply (execute_needs_token_and_break sklearn_stub collaborators_stub
           (Some "hf_token") sample_batch).
  vm_compute. reflexivity.
Defined.

(** ** Loading and handing over the frame *)

Section columns.
Import DataProcessorColumns.

Lemma composite_key_not_in_column_order : "CompositeKey" ∉ column_order.
Proof.
  intros Hin. apply list_elem_of_In in Hin. simpl in Hin.
  intuition discriminate.
Qed.

Lemma get_processed_data_selection (df : Frame) :
  columns (get_processed_data df)
    = filter (fun c => c ∈ columns df) column_order.
Proof.
  unfold get_processed_data, select, drop_column. simpl.
  apply filter_ext_in. intros c Hc. rewrite list_elem_of_filter.
  split; [tauto|]. intros Hin. split; [|done]. intros ->.
  by apply composite_key_not_in_column_order.
Qed.
End columns.

(** X13. [load_data] returns the frame that was read, unchanged, exactly when the
    file could be read and has all nine required columns; every failure, of
    the read or of the validation, is a [ValueError] whose text starts with
    [Error loading file: ]. *)
Theorem load_data_validates_columns (read : string + Frame) :
  (∀ df, DataProcessorColumns.load_data read = Ok df ↔
         read = inr df ∧
         Forall (fun c => c ∈ columns df) DataProcessorColumns.required_columns) ∧
  (∀ e, DataProcessorColumns.load_data read = Raise e →
        ∃ msg, e = ValueError ("Error loading file: " +:+ msg)).
Proof.
  unfold DataProcessorColumns.load_data.
  destruct read as [msg|df0].
  { split; [|intros e [= <-]; eauto]. intros df. split; [discriminate|].
    intros [[=] _]. }
  set (missing := filter (fun c => c ∉ columns df0)
                         DataProcessorColumns.required_columns).
  assert (missing = [] ↔
          Forall (fun c => c ∈ columns df0)
                 DataProcessorColumns.required_columns) as Hmissing.
  { subst missing. generalize DataProcessorColumns.required_columns.
    induction l as [|c l IH]; [split; [constructor | done]|].
    rewrite filter_cons. destruct (decide (c ∉ columns df0)) as [Hc|Hc].
    - split; [discriminate|]. intros [? _]%Forall_cons. done.
    - rewrite IH, Forall_cons. apply dec_stable in Hc. tauto. }
  case_decide as Hm.
  - split; [|discriminate]. intros df. split.
    + intros [= <-]. split; [done | by apply Hmissing].
    + intros [[= <-] _]. done.
  - split; [|intros e [= <-]; eauto]. intros df. split; [discriminate|].
    intros [[= <-] Hall]. by apply Hmissing in Hall.
Qed.

(** A file without the balance columns is refused, and the text names them in
    the order of the required columns. *)
Example load_data_names_missing_columns :
  DataProcessorColumns.load_data (inr frame_without_balances)
    = Raise (ValueError
        "Error loading file: Missing required columns: ['GL Balance', 'IHUB Balance']").
Proof. reflexivity. Qed.

(** X14. [get_processed_data] keeps the columns of its fixed list that the frame
    has, in the order of the list, and nothing else: [CompositeKey] and any
    column outside the list are dropped. Every row is kept, with the cells of
    the kept columns unchanged. The list is the one the workflow's frames are
    built with. *)
Theorem get_processed_data_selects_columns (df : Frame) :
  columns (DataProcessorColumns.get_processed_data df)
    = filter (fun c => c ∈ columns df) DataProcessorColumns.column_order ∧
  ("CompositeKey" ∉ columns (DataProcessorColumns.get_processed_data df)) ∧
  Forall2 (fun row row' : Series =>
    ∀ c, row' !! c =
         if decide (c ∈ columns (DataProcessorColumns.get_processed_data df))
         then row !! c else None)
    (rows df) (rows (DataProcessorColumns.get_processed_data df)) ∧
  DataProcessorColumns.column_order = ReconciliationWorkflow.processed_columns.
Proof.
  pose proof (get_processed_data_selection df) as Hcols.
  split; [exact Hcols|]. split; [|split; [|reflexivity]].
  - rewrite Hcols. intros [_ H]%list_elem_of_filter.
    by apply composite_key_not_in_column_order.
  - rewrite Hcols.
    unfold DataProcessorColumns.get_processed_data,
      DataProcessorColumns.select, DataProcessorColumns.drop_column. simpl.
    rewrite <- Hcols, get_processed_data_selection.
    induction (rows df) as [|row l IH]; simpl; constructor; [|exact IH].
    intros c. rewrite map_lookup_filter. simpl.
    assert ((filter (fun c0 => c0 ∈ filter (fun c' => c' ≠ "CompositeKey")
                                         (columns df))
                    DataProcessorColumns.column_order)
            = filter (fun c => c ∈ columns df)
                     DataProcessorColumns.column_order) as ->.
    { exact (get_processed_data_selection df). }
    case_decide as Hc.
    + assert (c ≠ "CompositeKey") as Hne.
      { intros ->. apply list_elem_of_filter in Hc as [_ Hc].
        by apply composite_key_not_in_column_order. }
      rewrite lookup_delete_ne by done.
      destruct (row !! c) as [v|]; simpl; [|done].
      by rewrite option_guard_True.
    + destruct (delete "CompositeKey" row !! c) as [v|]; simpl; [|done].
      by rewrite option_guard_False.
Qed.

(** ** The summary with a language model *)

Lemma getitem_all (c : string) (l : list Series) :
  Forall (fun row : Series => is_Some (row !! c)) l →
  ∃ cells, mapM_result (fun row => Py.getitem row c) l = Ok cells ∧
           length cells = length l.
Proof.
  induction 1 as [|row l [v Hv] _ (cells & Hcells & Hlen)].
  { exists []. done. }
  exists (v :: cells). split; [|simpl; by rewrite Hlen].
  rewrite mapM_result_cons, Hcells. unfold Py.getitem. by rewrite Hv.
Qed.

Lemma column_cells (c : string) (df : Frame) :
  c ∈ columns df →
  Forall (fun row : Series => is_Some (row !! c)) (rows df) →
  ∃ cells, ExecutiveSummary.column c df = inr cells ∧
           length cells = length (rows df).
Proof.
  intros Hc Hrows. unfold ExecutiveSummary.column.
  rewrite bool_decide_eq_true_2 by done.
  destruct (getitem_all c (rows df) Hrows) as (cells & -> & Hlen).
  by exists cells.
Qed.

(** X15. With a language model, [generate_executive_summary] divides by the number
    of records: on a frame without rows it raises [ZeroDivisionError], and on
    any frame with rows (and the two columns it reads) it returns a text, the
    fixed one for a failed generation when the call to the model raises. *)
Theorem summary_divides_by_the_record_count (lm : language_model)
    (l : chain lm) (df : Frame) :
  "Match Status" ∈ columns df →
  "Is Anomaly" ∈ columns df →
  Forall (fun row : Series =>
    is_Some (row !! "Match Status") ∧ is_Some (row !! "Is Anomaly")) (rows df) →
  (rows df = [] →
   ExecutiveSummary.generate_executive_summary lm l df = inl ZeroDivisionError) ∧
  (rows df ≠ [] →
   ∃ prompt,
     ExecutiveSummary.generate_executive_summary lm l df
       = inr (match call lm l prompt with
              | Ok text => text
              | Raise _ => "Analysis generation failed"
              end)).
Proof.
  intros Hms Hia Hrows.
  destruct (column_cells "Match Status" df Hms) as (status & Hstatus & _).
  { eapply Forall_impl; [exact Hrows | by intros row [? _]]. }
  destruct (column_cells "Is Anomaly" df Hia) as (flags & Hflags & _).
  { eapply Forall_impl; [exact Hrows | by intros row [_ ?]]. }
  unfold ExecutiveSummary.generate_executive_summary.
  rewrite Hstatus, Hflags. split.
  - intros ->. reflexivity.
  - intros Hne. rewrite decide_False by (by destruct (rows df)).
    eexists. reflexivity.
Qed.

Lemma summary_divides_by_the_record_count_witness :
  ExecutiveSummary.generate_executive_summary language_model_stub ()
    (ReconciliationWorkflow.to_frame []) = inl ZeroDivisionError ∧
  ∃ out prompt,
    AnomalyDetector.score sklearn_stub (DataProcessor.full_pipeline sample_batch)
      = Ok out ∧
    ExecutiveSummary.generate_executive_summary language_model_stub ()
      (ReconciliationWorkflow.to_frame out) = inr prompt.
Proof.
  split.
  - apply (summary_divides_by_the_record_count language_model_stub ()
             (ReconciliationWorkflow.to_frame [])).
    + apply (bool_decide_unpack _). vm_compute. exact I.
    + apply (bool_decide_unpack _). vm_compute. exact I.
    + constructor.
    + reflexivity.
  - eexists. eexists. split; [vm_compute; reflexivity|].
    vm_compute. reflexivity.
Defined.

(** ** The first record of a series *)

(** X4. The first record of every series (the first row of its key in the frame of
    the Difference Engine) has no previous difference, so the classifier
    labels it [Within Tolerance] when it is a [Match] and [New Difference]
    when it is a [Break]. *)
Theorem first_record_of_a_series (df : list CleanRow) (k : string)
    (r : ScoredRow) :
  DataProcessor.group k (DataProcessor.full_pipeline df) !! 0%nat
    = Some (flagged_base (scored_base r)) →
  F.isna (Previous_Balance_Difference r) = true ∧
  HybridAnomalyClassifier.classify_break (ReconciliationWorkflow.to_series r)
    = Ok (if decide (Match_Status r = "Match") then "Within Tolerance"
          else "New Difference").
Proof.
  intros Hfirst.
  pose proof (groupby_shift_chained ∅
                (DataProcessor.calculate_differences
                   (DataProcessor.preprocess_data df)) k) as Hchain.
  rewrite lookup_empty in Hchain.
  destruct (chained_lookup _ _ 0 _ Hchain Hfirst) as [Hprev _].
  change (Previous_Balance_Difference r = nan) in Hprev.
  assert (F.isna (Previous_Balance_Difference r) = true) as Hna
    by (by rewrite Hprev).
  split; [exact Hna|].
  assert (flagged_base (scored_base r) ∈ DataProcessor.full_pipeline df) as Hr.
  { apply list_elem_of_lookup_2 in Hfirst.
    unfold DataProcessor.group in Hfirst.
    by apply list_elem_of_filter in Hfirst as [_ ?]. }
  destruct (pipeline_label_cases df r Hr) as (l & -> & _ & Hwt & Hnd).
  f_equal. case_decide as Hm.
  - by apply Hwt.
  - apply Hnd. split; [|exact Hna].
    pose proof (full_pipeline_match_status df _ Hr) as Hms.
    change (Match_Status (flagged_base (scored_base r)))
      with (Match_Status r) in Hms.
    rewrite Hms in *. by destruct (abs _ <? 1)%float.
Qed.

Lemma first_record_of_a_series_witness :
  F.isna (Previous_Balance_Difference half_unit_record) = true ∧
  HybridAnomalyClassifier.classify_break
    (ReconciliationWorkflow.to_series half_unit_record)
    = Ok (if decide (Match_Status half_unit_record = "Match")
          then "Within Tolerance" else "New Difference").
Proof.
  apply (first_record_of_a_series half_unit_batch "Co1_Acc1_AU1_USD_PA1"
           half_unit_record).
  vm_compute. reflexivity.
Defined.

(** ** The composite key *)

Lemma string_app_cons (c : Ascii.ascii) (s t : string) :
  String c s +:+ t = String c (s +:+ t).
Proof. reflexivity. Qed.

Lemma string_app_assoc (s t u : string) : (s +:+ t) +:+ u = s +:+ (t +:+ u).
Proof.
  induction s as [|c s IH]; [reflexivity|].
  by rewrite !string_app_cons, IH.
Qed.

(** Two texts without the separator that are followed by it split a text at
    the same place. *)
Lemma separator_splits_once (a a' b b' : string) :
  underscore_free a → underscore_free a' →
  a +:+ "_" +:+ b = a' +:+ "_" +:+ b' → a = a' ∧ b = b'.
Proof.
  revert a'. induction a as [|c a IH]; intros [|c' a'] Ha Ha' H.
  - vm_compute in H. by injection H as ->.
  - exfalso. apply (proj1 Ha'). vm_compute in H. by injection H as <- _.
  - exfalso. apply (proj1 Ha). vm_compute in H. by injection H as -> _.
  - rewrite !string_app_cons in H. injection H as -> H.
    destruct (IH a' (proj2 Ha) (proj2 Ha') H) as [-> ->]. done.
Qed.

(** X16. The key tells two identities apart when company, account, accounting unit
    and currency do not contain an underscore: rows with the same key then have
    the same five identity fields. An underscore in a field can make two
    identities share a key: a company [a_b] with account [c] has the key of
    the company [a] with account [b_c]. *)
Theorem composite_key_identifies (r1 r2 : CleanRow) :
  (underscore_free (Company r1) ∧ underscore_free (Account r1) ∧
   underscore_free (AU r1) ∧ underscore_free (Currency r1) →
   underscore_free (Company r2) ∧ underscore_free (Account r2) ∧
   underscore_free (AU r2) ∧ underscore_free (Currency r2) →
   DataProcessor.composite_key r1 = DataProcessor.composite_key r2 →
   Company r1 = Company r2 ∧ Account r1 = Account r2 ∧ AU r1 = AU r2 ∧
   Currency r1 = Currency r2 ∧ Primary_Account r1 = Primary_Account r2) ∧
  (∀ a b c : string,
     DataProcessor.composite_key
       (with_company_account (a +:+ "_" +:+ b) c r1)
     = DataProcessor.composite_key
         (with_company_account a (b +:+ "_" +:+ c) r1)).
Proof.
  split.
  - intros (Hc1 & Ha1 & Hu1 & Hy1) (Hc2 & Ha2 & Hu2 & Hy2) H.
    unfold DataProcessor.composite_key in H.
    apply separator_splits_once in H as [Hc H]; [|done..].
    apply separator_splits_once in H as [Ha H]; [|done..].
    apply separator_splits_once in H as [Hu H]; [|done..].
    apply separator_splits_once in H as [Hy H]; [|done..].
    done.
  - intros a b c. unfold DataProcessor.composite_key, with_company_account.
    simpl. by rewrite !string_app_assoc.
Qed.

Lemma composite_key_identifies_witness :
  Company (sample_row 0 1 0 0) = Company (sample_row 1 2 5 7) ∧
  Account (sample_row 0 1 0 0) = Account (sample_row 1 2 5 7) ∧
  AU (sample_row 0 1 0 0) = AU (sample_row 1 2 5 7) ∧
  Currency (sample_row 0 1 0 0) = Currency (sample_row 1 2 5 7) ∧
  Primary_Account (sample_row 0 1 0 0) = Primary_Account (sample_row 1 2 5 7).
Proof.
  apply (proj1 (composite_key_identifies (sample_row 0 1 0 0)
                  (sample_row 1 2 5 7))).
  - vm_compute. repeat split; discriminate.
  - vm_compute. repeat split; discriminate.
  - reflexivity.
Defined.

(** ** Anomalies are breaks *)

(** X11. When the Anomaly Scorer has run on a frame with distinct index labels, the
    records it flags are [Break] records: there are at most as many anomalies
    as breaks. *)
Theorem anomalies_are_among_breaks (sk : sklearn) (df : list LinkedRow)
    (out : list ScoredRow) :
  NoDup (map (fun r : LinkedRow => index r) df) →
  AnomalyDetector.score sk df = Ok out →
  Forall (fun r : ScoredRow => Is_Anomaly r = 1%Z → Match_Status r = "Break")
         out ∧
  (length (filter (fun r : ScoredRow => Is_Anomaly r = 1%Z) out)
     ≤ length (breaks_of df))%nat.
Proof.
  intros Hnd H. unfold AnomalyDetector.score in H.
  apply bind_Ok in H as ([self fl] & Hdet & Hsc).
  apply detect_anomalies_flags in Hdet as [Hrows Hflags]; [|done].
  apply calculate_anomaly_scores_rows in Hsc.
  subst df fl. clear Hnd.
  assert (Forall (fun r : ScoredRow =>
            Is_Anomaly r = 1%Z → Match_Status r = "Break") out) as Hbreaks.
  { induction out as [|r out IH]; simpl in *; [constructor|].
    apply Forall_cons in Hflags as [[_ Hzero] Hflags].
    constructor; [|by apply IH].
    intros Hone. destruct (decide (Match_Status r = "Break")) as [|Hne];
      [done|]. apply Hzero in Hne. simpl in *. lia. }
  split; [exact Hbreaks|]. clear Hflags. unfold breaks_of.
  induction Hbreaks as [|r out Hr _ IH]; [done|].
  change (map flagged_base (map scored_base (r :: out)))
    with (flagged_base (scored_base r)
          :: map flagged_base (map scored_base out)).
  rewrite !filter_cons.
  destruct (decide (Is_Anomaly r = 1%Z)) as [Hone|_].
  - rewrite decide_True by (by apply Hr). simpl. lia.
  - case_decide; simpl; lia.
Qed.

Lemma anomalies_are_among_breaks_witness :
  ∃ out,
    AnomalyDetector.score sklearn_stub (DataProcessor.full_pipeline sample_batch)
      = Ok out ∧
    Forall (fun r : ScoredRow => Is_Anomaly r = 1%Z → Match_Status r = "Break")
           out ∧
    (length (filter (fun r : ScoredRow => Is_Anomaly r = 1%Z) out)
       ≤ length (breaks_of (DataProcessor.full_pipeline sample_batch)))%nat.
Proof.
  eexists. split; [vm_compute; reflexivity|].
  apply (anomalies_are_among_breaks sklearn_stub
           (DataProcessor.full_pipeline sample_batch)).
  - apply (bool_decide_unpack _). vm_compute. exact I.
  - vm_compute. reflexivity.
Defined.

(** ** Running the engine again *)

Section second_run.
Import Dtyped.

Lemma dtyped_sort_values_sorted (l : list KeyedRow) :
  Sorted row_le (sort_values l).
Proof.
  induction l as [|x l IH]; simpl; [constructor|].
  by apply dtyped_insert_row_sorted.
Qed.

(** Sorting a sorted frame changes nothing: the sort is stable. *)
Lemma dtyped_sort_values_of_sorted (l : list KeyedRow) :
  Sorted row_le l → sort_values l = l.
Proof.
  induction 1 as [|x l Hl IH Hhd]; [done|].
  change (sort_values (x :: l)) with (insert_row x (sort_values l)).
  rewrite IH.
  destruct Hhd as [|y l Hxy]; simpl; [done|].
  unfold row_le in Hxy. by rewrite Hxy.
Qed.

(** Preprocessing a preprocessed row whose balances rounding leaves alone
    gives the row back. *)
Lemma dtyped_preprocess_row_again (s : KeyedRow) :
  CompositeKey s = identity_key s →
  Num.round2 (GL_Balance s) = GL_Balance s →
  Num.round2 (IHUB_Balance s) = IHUB_Balance s →
  preprocess_row s = s.
Proof.
  destruct s as [c key]. destruct c. simpl. intros -> Hgl Hihub.
  unfold preprocess_row, round_row. simpl. by rewrite Hgl, Hihub.
Qed.

Lemma round2_unless_float (v : num) :
  (∀ x, v = Float64 x → F.round2 x = x) → Num.round2 v = v.
Proof. destruct v as [z|x]; simpl; [done|]. intros H. by rewrite (H x). Qed.
End second_run.

(** X17. Running the Difference Engine again on the record set it returned,
    from the balance columns of that set, returns the same record set, and
    so the same [Balance Difference] and [Match Status] columns, when
    [round(2)] leaves the float64 balances of the set as they are. On int64
    balance columns, which [round(2)] does not touch, it does so always. *)
Theorem second_run_of_the_engine (df : list Dtyped.CleanRow) :
  Forall (fun r : Dtyped.LinkedRow =>
    (∀ x, Dtyped.GL_Balance r = Float64 x → F.round2 x = x) ∧
    (∀ x, Dtyped.IHUB_Balance r = Float64 x → F.round2 x = x))
    (Dtyped.full_pipeline df) →
  Dtyped.full_pipeline
    (map Dtyped.raw_columns (Dtyped.full_pipeline df))
    = Dtyped.full_pipeline df ∧
  map (fun r : Dtyped.LinkedRow =>
         (Dtyped.Balance_Difference r, Dtyped.Match_Status r))
      (Dtyped.full_pipeline
         (map Dtyped.raw_columns (Dtyped.full_pipeline df)))
    = map (fun r : Dtyped.LinkedRow =>
             (Dtyped.Balance_Difference r, Dtyped.Match_Status r))
          (Dtyped.full_pipeline df).
Proof.
  intros Hround.
  assert (Dtyped.full_pipeline
            (map Dtyped.raw_columns (Dtyped.full_pipeline df))
          = Dtyped.full_pipeline df) as Hsame; [|by rewrite Hsame].
  assert (Dtyped.preprocess_data
            (map Dtyped.raw_columns (Dtyped.full_pipeline df))
          = Dtyped.preprocess_data df) as Hpre.
  2: { unfold Dtyped.full_pipeline at 1. by rewrite Hpre. }
  unfold Dtyped.preprocess_data at 1.
  assert (map Dtyped.preprocess_row
            (map Dtyped.raw_columns (Dtyped.full_pipeline df))
          = Dtyped.preprocess_data df) as ->.
  { rewrite <- dtyped_full_pipeline_keyed.
    pose proof (dtyped_full_pipeline_keys df) as Hkeys.
    revert Hround Hkeys.
    generalize (Dtyped.full_pipeline df). intros l Hround Hkeys.
    induction Hround as [|r l [Hgl Hihub] _ IH]; [done|].
    simpl. f_equal.
    - apply (dtyped_preprocess_row_again
               (Dtyped.diff_base (Dtyped.linked_base r))).
      + apply Hkeys. left.
      + by apply round2_unless_float.
      + by apply round2_unless_float.
    - apply IH. intros q Hq. apply Hkeys. by right. }
  apply dtyped_sort_values_of_sorted. apply dtyped_sort_values_sorted.
Qed.

Lemma second_run_of_the_engine_witness :
  Dtyped.full_pipeline
    (map Dtyped.raw_columns (Dtyped.full_pipeline whole_batch))
    = Dtyped.full_pipeline whole_batch ∧
  Dtyped.full_pipeline
    (map Dtyped.raw_columns
         (Dtyped.full_pipeline (map of_float_row unrounded_batch)))
    = Dtyped.full_pipeline (map of_float_row unrounded_batch).
Proof.
  split.
  - apply (second_run_of_the_engine whole_batch).
    vm_compute. repeat constructor; intros x; discriminate.
  - apply (second_run_of_the_engine (map of_float_row unrounded_batch)).
    vm_compute. repeat constructor; intros x [= <-]; reflexivity.
Defined.
